(** * FireFly explorer UI: the Dashboard, AccountDetails and MessageDetails views

    A shallow embedding of the three React function components.  A component
    is a record of its [useState] cells; an event handler or a promise
    callback is a function from the state of the render it closes over to the
    list of calls it makes (state setters, [console.log]); the calls are then
    applied in order.  Effects ([useEffect]) issue requests, and the settling
    of a request is an event of the component's transition function. *)

From Stdlib Require Import ZArith Lia Ascii String.
From Stdlib Require SpecFloat.
From stdpp Require Import gmap strings list fin_maps.

Local Open Scope string_scope.
Local Open Scope list_scope.
Local Open Scope Z_scope.

(** ** The JavaScript values the views compute with *)
Module JS.

(** A [number] as the views use it: page indices, page sizes and counts are
    integers; [NaN] is what a failed coercion yields, and a count that the
    server left out compares like it.  The integers stand for the binary64
    values of the same magnitude: every integer up to [MAX_SAFE_INTEGER] in
    absolute value is one, and a sum or product of such integers that stays
    in that range is computed exactly by binary64 arithmetic
    ([pageGuard_on_safe_integers]).  Beyond it the source rounds
    ([product_rounds_above_safe_range]); the properties that depend on the
    value of a sum or of a product are stated for safe integers.  Negative
    zero and the infinities have no image here. *)
Inductive number :=
| Num (z : Z)
| NaN.

#[global] Instance number_eq_dec : EqDecision number.
Proof. solve_decision. Defined.

(** [Number.MAX_SAFE_INTEGER] = 2^53 - 1 *)
Definition MAX_SAFE_INTEGER : Z := 9007199254740991.

(** [Number.isSafeInteger(z)] *)
Definition isSafeInteger (z : Z) : Prop :=
  - MAX_SAFE_INTEGER <= z <= MAX_SAFE_INTEGER.

(** [a * b]: the exact product, which is the binary64 product whenever the
    factors and the product are safe integers ([times_exact]). *)
Definition mul (a b : number) : number :=
  match a, b with
  | Num x, Num y => Num (x * y)
  | _, _ => NaN
  end.

(** [a + b] on numbers: the exact sum, which is the binary64 sum whenever
    the terms and the sum are safe integers ([plus_one_exact] for the sum
    the views compute, [currentPage + 1]). *)
Definition add (a b : number) : number :=
  match a, b with
  | Num x, Num y => Num (x + y)
  | _, _ => NaN
  end.

(** [a > b]: false as soon as one side is [NaN] *)
Definition gt (a b : number) : bool :=
  match a, b with
  | Num x, Num y => y <? x
  | _, _ => false
  end.

(** [a >= b]: false as soon as one side is [NaN] *)
Definition ge (a b : number) : bool :=
  match a, b with
  | Num x, Num y => y <=? x
  | _, _ => false
  end.

(** [a !== 0] on a length *)
Definition nonzero (n : nat) : bool := negb (Nat.eqb n 0).

(** Truthiness of a [string | undefined]: [undefined] and the empty string
    are falsy. *)
Definition truthy (v : option string) : bool :=
  match v with
  | Some s => negb (String.eqb s "")
  | None => false
  end.

Definition is_digit (c : ascii) : bool :=
  let n := N_of_ascii c in ((48 <=? n) && (n <=? 57))%N.

Fixpoint digits (s : string) (acc : Z) : option Z :=
  match s with
  | EmptyString => Some acc
  | String c r =>
      if is_digit c
      then digits r (10 * acc + (Z.of_N (N_of_ascii c) - 48))
      else None
  end.

Definition unsigned_literal (s : string) : number :=
  match s with
  | EmptyString => NaN
  | _ => match digits s 0 with Some z => Num z | None => NaN end
  end.

(** StringToNumber on the decimal integer literals (optional sign, then
    digits) and on the empty string, which converts to 0.  This is the form
    in which a page-size option arrives; the other numeric literal forms
    (blanks, fractions, exponents, hexadecimal, Infinity) have no image in
    [number] and are sent to [NaN] here. *)
Definition StringToNumber (s : string) : number :=
  match s with
  | EmptyString => Num 0
  | String "-"%char r =>
      match unsigned_literal r with Num z => Num (- z) | NaN => NaN end
  | String "+"%char r => unsigned_literal r
  | _ => unsigned_literal s
  end.

(** What [event.target.value] holds: the option's value as the select
    widget hands it over, a number, or its text for a native input. *)
Inductive value :=
| VNumber (n : number)
| VString (s : string).

(** Unary plus: [+v] *)
Definition ToNumber (v : value) : number :=
  match v with
  | VNumber n => n
  | VString s => StringToNumber s
  end.

(** The settled state of a [fetch] promise followed by [response.json()]:
    the promise rejects (transport failure), or it resolves to a response
    with its [ok] flag and its body, [None] when the body is not JSON of the
    expected shape and [json()] rejects. *)
Inductive FetchResult (B : Type) :=
| Rejected
| Response (ok : bool) (json : option B).
Arguments Rejected {B}.
Arguments Response {B} ok json.

End JS.

Import JS.

(** ** Requests *)

(** The right-hand side of a query parameter: an interpolated string, an
    interpolated number, a literal prefix followed by an interpolated number
    ([created=>=${...}]), or nothing ([&count]). *)
Inductive QueryArg :=
| QText (s : string)
| QNumber (n : number)
| QPrefixed (prefix : string) (n : number)
| QBare.

(** A GET request: the path and the query parameters in the order of the
    template string. *)
Record Request := {
  path : string;
  query : list (string * QueryArg);
}.

#[global] Instance QueryArg_eq_dec : EqDecision QueryArg.
Proof. solve_decision. Defined.

#[global] Instance Request_eq_dec : EqDecision Request.
Proof. solve_decision. Defined.

(** The value of a query parameter, as a server reads it: the first one of
    that name. *)
Fixpoint param (name : string) (q : list (string * QueryArg)) : option QueryArg :=
  match q with
  | [] => None
  | (k, v) :: r => if String.eqb k name then Some v else param name r
  end.

(** ** Rendered output

    What a component returns: text, elements with their scalar attributes,
    their function- or data-valued props (of a type [P] each view chooses)
    and their children, and the shared table component with its rows.  Style
    classes are left out. *)
Module UI.

Inductive Attr :=
| AText (s : string)
| ANumber (n : number)
| ANumbers (l : list number)
| AFlag (b : bool).

(** [Text] and [NumberText] are string and number children; [Nothing] is a
    child that is [undefined], [false] or the empty string, for which React
    renders nothing; [Foreign] is a child that is neither an element nor a
    primitive (a function or an object, named by the property it was read
    from). *)
#[local] Set Warnings "-register-all".
Inductive Node (P : Type) :=
| Text (s : string)
| NumberText (n : number)
| Nothing
| Foreign (name : string)
| Element (tag : string) (attrs : list (string * Attr))
    (props : list (string * P)) (children : list (Node P))
| DataTable (attrs : list (string * Attr)) (columnHeaders : list string)
    (records : list (string * list (Node P))) (pagination : option (Node P)).

Arguments Text {P} s.
Arguments NumberText {P} n.
Arguments Nothing {P}.
Arguments Foreign {P} name.
Arguments Element {P} tag attrs props children.
Arguments DataTable {P} attrs columnHeaders records pagination.

(** [<>...</>] *)
Definition Fragment {P} (children : list (Node P)) : Node P :=
  Element "React.Fragment" [] [] children.

(** What a tree shows, left to right. *)
Inductive Leaf :=
| LText (s : string)
| LNumber (n : number)
| LForeign (name : string).

Fixpoint leaves {P} (n : Node P) : list Leaf :=
  match n with
  | Text s => [LText s]
  | NumberText n => [LNumber n]
  | Foreign name => [LForeign name]
  | Nothing => []
  | Element _ _ _ cs =>
      (fix go (l : list (Node P)) : list Leaf :=
         match l with
         | [] => []
         | c :: r => leaves c ++ go r
         end) cs
  | DataTable _ hs recs pg =>
      map LText hs ++
      (fix rows (l : list (string * list (Node P))) : list Leaf :=
         match l with
         | [] => []
         | (_, cols) :: r =>
             (fix go (l : list (Node P)) : list Leaf :=
                match l with
                | [] => []
                | c :: r => leaves c ++ go r
                end) cols ++ rows r
         end) recs ++
      match pg with Some p => leaves p | None => [] end
  end.

(** The function- and data-valued props of a tree with the tag of the element
    that carries them, left to right. *)
Fixpoint props_of {P} (n : Node P) : list (string * string * P) :=
  match n with
  | Element tag _ ps cs =>
      map (fun kp => (tag, fst kp, snd kp)) ps ++
      (fix go (l : list (Node P)) : list (string * string * P) :=
         match l with
         | [] => []
         | c :: r => props_of c ++ go r
         end) cs
  | DataTable _ _ recs pg =>
      (fix rows (l : list (string * list (Node P))) : list (string * string * P) :=
         match l with
         | [] => []
         | (_, cols) :: r =>
             (fix go (l : list (Node P)) : list (string * string * P) :=
                match l with
                | [] => []
                | c :: r => props_of c ++ go r
                end) cols ++ rows r
         end) recs ++
      match pg with Some p => props_of p | None => [] end
  | _ => []
  end.

End UI.

Import UI.

(** ** Property lookup on an object literal

    [o[k]] reads an own property when there is one and otherwise walks the
    prototype chain; the prototype of an object literal is [Object.prototype],
    whose members are named in [ObjectPrototype]. *)
Module JSObject.

Definition ObjectPrototype : list string :=
  ["constructor"; "hasOwnProperty"; "isPrototypeOf"; "propertyIsEnumerable";
   "toLocaleString"; "toString"; "valueOf"; "__proto__";
   "__defineGetter__"; "__defineSetter__"; "__lookupGetter__";
   "__lookupSetter__"].

Inductive Property (A : Type) :=
| Own (v : A)
| Inherited (name : string)
| Undefined.
Arguments Own {A} v.
Arguments Inherited {A} name.
Arguments Undefined {A}.

Definition get {A} (own : gmap string A) (k : string) : Property A :=
  match own !! k with
  | Some v => Own v
  | None => if bool_decide (k ∈ ObjectPrototype) then Inherited k else Undefined
  end.

End JSObject.

(** ** AccountDetails: a token account and its paginated transfer history *)
Module AccountDetails.

Definition PAGE_LIMITS : list number := [Num 5; Num 10].

(** The fields of a token account that the view reads. *)
Record ITokenAccount := {
  poolProtocolId : string;
  tokenIndex : option string;
  connector : string;
  key : string;
  balance : string;
  updated : string;
}.

(** The fields of a token transfer that the view reads; [tx_id] is [tx.id]. *)
Record ITokenTransfer := {
  tx_id : string;
  type : string;
  amount : string;
  from : option string;
  to : option string;
  created : string;
}.

(** The body of a paginated transfers response. *)
Record TransfersBody := {
  total : number;
  items : list ITokenTransfer;
}.

(** What the component reads from [useParams] and the namespace context. *)
Record Props := {
  selectedNamespace : string;
  poolProtocolID : string;
}.

#[global] Instance Props_eq_dec : EqDecision Props.
Proof. solve_decision. Defined.

(** The six [useState] cells. *)
Record State := {
  loading : bool;
  tokenAccount : option ITokenAccount;
  tokenTransfers : list ITokenTransfer;
  tokenTransfersTotal : number;
  currentPage : number;
  rowsPerPage : number;
}.

(** The initial values given to [useState]; [PAGE_LIMITS[0]] is 5. *)
Definition initial : State := {|
  loading := false;
  tokenAccount := None;
  tokenTransfers := [];
  tokenTransfersTotal := Num 0;
  currentPage := Num 0;
  rowsPerPage := default NaN (PAGE_LIMITS !! 0%nat);
|}.

(** A state on page [cp] of a listing with [total] rows, five rows a page. *)
Definition onPage (cp total : Z) : State := {|
  loading := false; tokenAccount := None; tokenTransfers := [];
  tokenTransfersTotal := Num total; currentPage := Num cp;
  rowsPerPage := Num 5;
|}.

(** The calls a handler or a promise callback makes. *)
Inductive Call :=
| setLoading (b : bool)
| setTokenAccount (a : option ITokenAccount)
| setTokenTransfers (l : list ITokenTransfer)
| setTokenTransfersTotal (n : number)
| setCurrentPage (n : number)
| setRowsPerPage (n : number)
| console_log (msg : string).

Definition reduce (s : State) (c : Call) : State :=
  match c with
  | setLoading b =>
      {| loading := b; tokenAccount := tokenAccount s;
         tokenTransfers := tokenTransfers s;
         tokenTransfersTotal := tokenTransfersTotal s;
         currentPage := currentPage s; rowsPerPage := rowsPerPage s |}
  | setTokenAccount a =>
      {| loading := loading s; tokenAccount := a;
         tokenTransfers := tokenTransfers s;
         tokenTransfersTotal := tokenTransfersTotal s;
         currentPage := currentPage s; rowsPerPage := rowsPerPage s |}
  | setTokenTransfers l =>
      {| loading := loading s; tokenAccount := tokenAccount s;
         tokenTransfers := l;
         tokenTransfersTotal := tokenTransfersTotal s;
         currentPage := currentPage s; rowsPerPage := rowsPerPage s |}
  | setTokenTransfersTotal n =>
      {| loading := loading s; tokenAccount := tokenAccount s;
         tokenTransfers := tokenTransfers s;
         tokenTransfersTotal := n;
         currentPage := currentPage s; rowsPerPage := rowsPerPage s |}
  | setCurrentPage n =>
      {| loading := loading s; tokenAccount := tokenAccount s;
         tokenTransfers := tokenTransfers s;
         tokenTransfersTotal := tokenTransfersTotal s;
         currentPage := n; rowsPerPage := rowsPerPage s |}
  | setRowsPerPage n =>
      {| loading := loading s; tokenAccount := tokenAccount s;
         tokenTransfers := tokenTransfers s;
         tokenTransfersTotal := tokenTransfersTotal s;
         currentPage := currentPage s; rowsPerPage := n |}
  | console_log _ => s
  end.

(** The state of the next render once the queued calls are applied. *)
Definition run (s : State) (cs : list Call) : State := fold_left reduce cs s.

Definition logged (cs : list Call) : list string :=
  flat_map (fun c => match c with console_log m => [m] | _ => [] end) cs.

(** [handleChangePage(_event, newPage)], closed over the state [s]. *)
Definition handleChangePage (s : State) (newPage : number) : list Call :=
  if gt newPage (currentPage s) &&
     ge (mul (rowsPerPage s) (add (currentPage s) (Num 1)))
        (tokenTransfersTotal s)
  then []
  else [setCurrentPage newPage].

Record ChangeEvent := { target_value : value }.

(** [handleChangeRowsPerPage(event)] *)
Definition handleChangeRowsPerPage (event : ChangeEvent) : list Call :=
  [setCurrentPage (Num 0); setRowsPerPage (ToNumber (target_value event))].

(** The URL of the account effect. *)
Definition accountRequest (p : Props) : Request := {|
  path := "/api/v1/namespaces/" +:+ selectedNamespace p +:+ "/tokens/accounts";
  query := [("poolprotocolid", QText (poolProtocolID p))];
|}.

(** The URL of the transfers effect. *)
Definition transfersRequest (p : Props) (s : State) : Request := {|
  path := "/api/v1/namespaces/" +:+ selectedNamespace p +:+ "/tokens/transfers";
  query := [("poolprotocolid", QText (poolProtocolID p));
            ("limit", QNumber (rowsPerPage s));
            ("skip", QNumber (mul (rowsPerPage s) (currentPage s)));
            ("count", QBare)];
|}.

(** The account effect up to the point where its request is in flight. *)
Definition accountEffect (p : Props) : list Call * Request :=
  ([setLoading true], accountRequest p).

(** The transfers effect up to the point where its request is in flight. *)
Definition transfersEffect (p : Props) (s : State) : list Call * Request :=
  ([], transfersRequest p s).

(** [.then(...)] of the account fetch: skipped when the fetch rejects, cut
    short when [json()] rejects. *)
Definition accountThen (r : FetchResult (list ITokenAccount)) : list Call :=
  match r with
  | Rejected => []
  | Response true (Some body) => [setTokenAccount (body !! 0%nat)]
  | Response true None => []
  | Response false _ => [console_log "error fetching token pool"]
  end.

(** [.then(...).finally(...)] of the account fetch. *)
Definition accountSettled (r : FetchResult (list ITokenAccount)) : list Call :=
  accountThen r ++ [setLoading false].

Definition transfersThen (r : FetchResult TransfersBody) : list Call :=
  match r with
  | Rejected => []
  | Response true (Some body) =>
      [setTokenTransfersTotal (total body); setTokenTransfers (items body)]
  | Response true None => []
  | Response false _ => [console_log "error fetching token pool"]
  end.

(** [.then(...).finally(...)] of the transfers fetch. *)
Definition transfersSettled (r : FetchResult TransfersBody) : list Call :=
  transfersThen r ++ [setLoading false].

(** *** The mounted component

    The props, the state of the last render, the requests in flight and the
    console.  [commit] applies the calls of one handler or callback and runs
    the transfers effect again when one of its dependencies
    [rowsPerPage], [currentPage] differs from the previous render. *)
Inductive Fetch :=
| AccountFetch (r : Request)
| TransfersFetch (r : Request).

#[global] Instance Fetch_eq_dec : EqDecision Fetch.
Proof. solve_decision. Defined.

Record Component := {
  props : Props;
  state : State;
  inflight : list Fetch;
  console : list string;
}.

(** First render with the initial state, then both effects in source order. *)
Definition mount (p : Props) : Component :=
  let a := accountEffect p in
  let f := transfersEffect p initial in
  {| props := p;
     state := run initial (fst a ++ fst f);
     inflight := [AccountFetch (snd a); TransfersFetch (snd f)];
     console := [] |}.

(** The dependency check of [useEffect] on [rowsPerPage] and [currentPage]
    ([Object.is], under which NaN is the same value as NaN). *)
Definition transfersDepsChanged (old new : State) : bool :=
  negb (bool_decide (rowsPerPage new = rowsPerPage old)) ||
  negb (bool_decide (currentPage new = currentPage old)).

Definition commit (c : Component) (cs : list Call) : Component :=
  let s' := run (state c) cs in
  if transfersDepsChanged (state c) s'
  then
    let f := transfersEffect (props c) s' in
    {| props := props c;
       state := run s' (fst f);
       inflight := inflight c ++ [TransfersFetch (snd f)];
       console := console c ++ logged cs |}
  else
    {| props := props c;
       state := s';
       inflight := inflight c;
       console := console c ++ logged cs |}.

Fixpoint remove_first (f : Fetch) (l : list Fetch) : list Fetch :=
  match l with
  | [] => []
  | g :: r => if bool_decide (f = g) then r else g :: remove_first f r
  end.

Definition settle (c : Component) (f : Fetch) : Component :=
  {| props := props c; state := state c;
     inflight := remove_first f (inflight c); console := console c |}.

Inductive Event :=
| PageChange (newPage : number)
| RowsPerPageChange (event : ChangeEvent)
| AccountSettles (r : Request) (res : FetchResult (list ITokenAccount))
| TransfersSettles (r : Request) (res : FetchResult TransfersBody)
| ParamsChange (p : Props).

(** One event of the component.  A result for a request that is not in
    flight changes nothing; new route parameters or a new namespace run both
    effects again. *)
Definition step (c : Component) (e : Event) : Component :=
  match e with
  | PageChange newPage => commit c (handleChangePage (state c) newPage)
  | RowsPerPageChange event => commit c (handleChangeRowsPerPage event)
  | AccountSettles r res =>
      if bool_decide (AccountFetch r ∈ inflight c)
      then commit (settle c (AccountFetch r)) (accountSettled res)
      else c
  | TransfersSettles r res =>
      if bool_decide (TransfersFetch r ∈ inflight c)
      then commit (settle c (TransfersFetch r)) (transfersSettled res)
      else c
  | ParamsChange p =>
      if bool_decide (p = props c) then c
      else
        let a := accountEffect p in
        let f := transfersEffect p (state c) in
        {| props := p;
           state := run (state c) (fst a ++ fst f);
           inflight := inflight c ++ [AccountFetch (snd a); TransfersFetch (snd f)];
           console := console c |}
  end.

Definition steps (c : Component) (es : list Event) : Component :=
  fold_left step es c.

(** *** Rendering *)

(** The function-valued props of the view's elements. *)
Inductive Handler :=
| onPageChange
| onRowsPerPageChange
| labelDisplayedRows
| history_push (url : string).

Section View.

(** [t]: the translation function of [useTokensTranslation];
    [formatDate d]: [dayjs(d).format('MM/DD/YYYY h:mm A')]. *)
Variable t : string -> string.
Variable formatDate : string -> string.

Definition icon (name : string) : Node Handler := Element name [] [] [].

Definition transferIconMap : gmap string (Node Handler) :=
  {[ "burn" := icon "FireIcon";
     "mint" := icon "StamperIcon";
     "transfer" := icon "SwapHorizontalIcon" ]}.

(** [{transferIconMap[type]}] as a child: an element, nothing for
    [undefined], or whatever member the prototype chain answers with. *)
Definition iconChild (type : string) : Node Handler :=
  match JSObject.get transferIconMap type with
  | JSObject.Own i => i
  | JSObject.Inherited name => Foreign name
  | JSObject.Undefined => Nothing
  end.

Definition HashPopover (attrs : list (string * Attr)) (address : string)
  : Node Handler :=
  Element "HashPopover" (attrs ++ [("address", AText address)]) [] [].

Definition addressCell (a : option string) : Node Handler :=
  if truthy a
  then HashPopover [("shortHash", AFlag true); ("textColor", AText "primary")]
         (default "" a)
  else Text "---".

Definition pagination (s : State) : Node Handler :=
  Element "TablePagination"
    [("component", AText "div"); ("count", ANumber (Num (-1)));
     ("rowsPerPage", ANumber (rowsPerPage s)); ("page", ANumber (currentPage s));
     ("rowsPerPageOptions", ANumbers PAGE_LIMITS)]
    [("onPageChange", onPageChange);
     ("onRowsPerPageChange", onRowsPerPageChange);
     ("labelDisplayedRows", labelDisplayedRows)]
    [].

Definition tokenTransfersColumnHeaders : list string :=
  [t "txHash"; t "method"; t "amount"; t "from"; t "to"; t "timestamp"].

Definition tokenTransfersRecord (tokenTransfer : ITokenTransfer)
  : string * list (Node Handler) :=
  (tx_id tokenTransfer,
   [ Element "Grid" [] []
       [ Element "Grid" [] [] [iconChild (type tokenTransfer)];
         Element "Grid" [] []
           [HashPopover [("shortHash", AFlag true); ("textColor", AText "primary")]
              (tx_id tokenTransfer)] ];
     Text (t (type tokenTransfer));
     Text (amount tokenTransfer);
     addressCell (from tokenTransfer);
     addressCell (to tokenTransfer);
     Text (formatDate (created tokenTransfer)) ]).

Definition tokenTransfersRecords (s : State)
  : list (string * list (Node Handler)) :=
  map tokenTransfersRecord (tokenTransfers s).

Definition detailsData (a : ITokenAccount) : list (string * Node Handler) :=
  [ (t "poolProtocolID", Text (t (poolProtocolId a)));
    (t "tokenIndex",
     if truthy (tokenIndex a) then Text (t (default "" (tokenIndex a)))
     else Text "---");
    (t "connector", Text (connector a));
    (t "key", HashPopover [] (key a));
    (t "balance", Text (balance a));
    (t "updated", Text (formatDate (updated a))) ].

Definition detailsRow (d : string * Node Handler) : Node Handler :=
  Element "React.Fragment" [("key", AText (fst d))] []
    [ Element "Grid" [] [] [Element "Typography" [] [] [Text (fst d)]];
      Element "Grid" [] [] [Element "Typography" [] [] [snd d]] ].

(** What the component returns for props [p] and state [s]. *)
Definition render (p : Props) (s : State) : Node Handler :=
  if loading s then
    Element "Box" [] [] [Element "CircularProgress" [] [] []]
  else
    match tokenAccount s with
    | None => Fragment []
    | Some a =>
        Element "Grid" [] []
          [ Element "Grid" [] []
              [ Element "Grid" [] []
                  [ Element "Breadcrumbs" [] []
                      [ Element "Link" []
                          [("onClick",
                            history_push ("/namespace/" +:+ selectedNamespace p
                                          +:+ "/tokens/accounts/"))]
                          [Text (t "accounts")];
                        Element "Link" [] [] [Text (t "accountDetails")] ] ];
                Element "Box" [] [] [];
                Element "Grid" [] []
                  [Element "Typography" [] [] [Text (t "accountDetails")]];
                Element "Grid" [] []
                  [ Element "Grid" [] []
                      [ Element "Paper" [] []
                          [ Element "Grid" [] []
                              [ Element "Grid" [] []
                                  [Element "Typography" [] [] [Text (t "details")]] ];
                            Element "List" [] []
                              [Element "Grid" [] [] (map detailsRow (detailsData a))] ] ];
                    Element "Grid" [] []
                      [ if nonzero (length (tokenTransfers s))
                        then DataTable
                               [("header", AText (t "transferHistory"));
                                ("minHeight", AText "300px");
                                ("maxHeight", AText "calc(100vh - 340px)")]
                               tokenTransfersColumnHeaders
                               (tokenTransfersRecords s)
                               (Some (pagination s))
                        else Element "DataTableEmptyState"
                               [("message", AText (t "noTokenTransfersToDisplay"))]
                               [] [] ] ] ] ]
    end.

End View.

End AccountDetails.

(** ** [Math.random] and [Math.floor] on binary64

    A double is a [spec_float] at precision 53 and maximal exponent 1024;
    the product is the correctly rounded one of [SpecFloat]. *)
Module JSMath.

Definition double := SpecFloat.spec_float.

Definition is_double (x : double) : bool := SpecFloat.valid_binary 53 1024 x.

(** The literal [1000] = 1000 * 2^43 * 2^-43. *)
Definition thousand : double := SpecFloat.S754_finite false 8796093022208000 (-43).

(** [1] = 2^52 * 2^-52. *)
Definition one : double := SpecFloat.S754_finite false 4503599627370496 (-52).

(** [x * y] *)
Definition times (x y : double) : double := SpecFloat.SFmul 53 1024 x y.

(** What [Math.random()] may return: a double [r] with [0 <= r < 1]. *)
Definition is_random (r : double) : bool :=
  is_double r &&
  SpecFloat.SFleb (SpecFloat.S754_zero false) r &&
  SpecFloat.SFltb r one.

(** [0.5] = 2^52 * 2^-53. *)
Definition half : double := SpecFloat.S754_finite false 4503599627370496 (-53).

(** [+0] *)
Definition zero : double := SpecFloat.S754_zero false.

(** The double nearest to the integer [z]. *)
Definition ofInteger (z : Z) : double :=
  SpecFloat.binary_normalize 53 1024 z 0 false.

(** [x + y] *)
Definition plus (x y : double) : double := SpecFloat.SFadd 53 1024 x y.

(** [x > y] and [x >= y]: false as soon as one side is NaN. *)
Definition greater (x y : double) : bool := SpecFloat.SFltb y x.
Definition greaterEq (x y : double) : bool := SpecFloat.SFleb y x.

(** [Math.floor(x)] as a [number]: the largest integer below [m * 2^e]
    ([Z.shiftl] by a negative amount divides rounding down); [NaN] for NaN.
    The floor of an infinity is that infinity, which [number] does not hold;
    it is sent to [NaN] here. *)
Definition floor (x : double) : number :=
  match x with
  | SpecFloat.S754_zero _ => Num 0
  | SpecFloat.S754_finite s m e =>
      Num (Z.shiftl (SpecFloat.cond_Zopp s (Zpos m)) e)
  | _ => NaN
  end.

End JSMath.

(** ** The entities of [interfaces] that the Dashboard and MessageDetails
    read *)
Module Interfaces.

(** [header.tx] of a message *)
Record ITx := {
  tx_type : string;
  tx_id : string;
}.

Record IMessageHeader := {
  id : string;
  author : string;
  type : string;
  topic : string;
  context : string;
  datahash : string;
  created : string;
  tx : ITx;
}.

Record IMessage := {
  header : IMessageHeader;
  sequence : number;
  batchID : string;
}.

Record ITransaction := {
  transaction_id : string;
  transaction_sequence : number;
  transaction_created : string;
}.

(** [payload_tx_id] is [payload.tx.id] of a batch. *)
Record IBatch := {
  payload_tx_id : string;
}.

End Interfaces.

(** ** Dashboard: summary counters, latest messages, recent transactions *)
Module Dashboard.

Import Interfaces.

Record State := {
  loading : bool;
  messages : list IMessage;
  txSequence : list ITransaction;
  transactions : list ITransaction;
}.

Definition initial : State := {|
  loading := false;
  messages := [];
  txSequence := [];
  transactions := [];
|}.

Inductive Call :=
| setLoading (b : bool)
| setMessages (l : list IMessage)
| setTxSequence (l : list ITransaction)
| setTransactions (l : list ITransaction).

Definition reduce (s : State) (c : Call) : State :=
  match c with
  | setLoading b =>
      {| loading := b; messages := messages s;
         txSequence := txSequence s; transactions := transactions s |}
  | setMessages l =>
      {| loading := loading s; messages := l;
         txSequence := txSequence s; transactions := transactions s |}
  | setTxSequence l =>
      {| loading := loading s; messages := messages s;
         txSequence := l; transactions := transactions s |}
  | setTransactions l =>
      {| loading := loading s; messages := messages s;
         txSequence := txSequence s; transactions := l |}
  end.

Definition run (s : State) (cs : list Call) : State := fold_left reduce cs s.

(** The three URLs of the effect; [since] is
    [dayjs().subtract(1, 'day').unix()]. *)
Definition messagesRequest (selectedNamespace : string) : Request := {|
  path := "/api/v1/namespaces/" +:+ selectedNamespace +:+ "/messages";
  query := [("limit", QNumber (Num 5))];
|}.

Definition txSequenceRequest (selectedNamespace : string) : Request := {|
  path := "/api/v1/namespaces/" +:+ selectedNamespace +:+ "/transactions";
  query := [("limit", QNumber (Num 1))];
|}.

Definition txRequest (selectedNamespace : string) (since : Z) : Request := {|
  path := "/api/v1/namespaces/" +:+ selectedNamespace +:+ "/transactions";
  query := [("created", QPrefixed ">=" (Num since))];
|}.

(** The effect up to [Promise.all]: the flag is raised and the three
    requests are in flight together. *)
Definition effect (selectedNamespace : string) (since : Z)
  : list Call * list Request :=
  ([setLoading true],
   [messagesRequest selectedNamespace; txSequenceRequest selectedNamespace;
    txRequest selectedNamespace since]).

(** The [.then] callback on the three responses.  The setters run in source
    order and a [json()] that rejects cuts the callback short. *)
Definition onResponses
  (messageOk : bool) (messageJson : option (list IMessage))
  (txSequenceOk : bool) (txSequenceJson : option (list ITransaction))
  (txOk : bool) (txJson : option (list ITransaction)) : list Call :=
  if messageOk && txSequenceOk && txOk then
    match messageJson with
    | None => []
    | Some ms =>
        setMessages ms ::
        match txJson with
        | None => []
        | Some ts =>
            setTransactions ts ::
            match txSequenceJson with
            | None => []
            | Some sq => [setTxSequence sq]
            end
        end
    end
  else [].

(** [Promise.all([...]).then(...)]: the callback runs only when none of the
    three fetches rejects. *)
Definition allThen
  (messageResponse : FetchResult (list IMessage))
  (txSequenceResponse txResponse : FetchResult (list ITransaction)) : list Call :=
  match messageResponse, txSequenceResponse, txResponse with
  | Response mok mj, Response sok sj, Response tok tj =>
      onResponses mok mj sok sj tok tj
  | _, _, _ => []
  end.

(** [Promise.all([...]).then(...).finally(...)] *)
Definition settled
  (messageResponse : FetchResult (list IMessage))
  (txSequenceResponse txResponse : FetchResult (list ITransaction)) : list Call :=
  allThen messageResponse txSequenceResponse txResponse ++ [setLoading false].

(** The data-valued prop of the view's elements. *)
Inductive DataProp :=
| transactions_prop (l : list ITransaction).

(** [Math.floor(Math.random() * 1000)] for the sample [random] that
    [Math.random()] returns. *)
Definition networkMembers (random : JSMath.double) : number :=
  JSMath.floor (JSMath.times random JSMath.thousand).

Section View.

(** [t]: the translation function of [useTranslation];
    [formatDate d]: [dayjs(d).format('MM/DD/YYYY h:mm A')]. *)
Variable t : string -> string.
Variable formatDate : string -> string.

Definition summaryPanel (label : string) (value : Node DataProp) : Node DataProp :=
  Element "Card" [] []
    [ Element "CardContent" [] []
        [ Element "Typography" [] [] [Text label];
          Element "Typography" [] [] [value] ] ].

Definition HashPopover (attrs : list (string * Attr)) (address : string)
  : Node DataProp :=
  Element "HashPopover" (attrs ++ [("address", AText address)]) [] [].

Definition messageColumnHeaders : list string :=
  [t "author"; t "type"; t "dataHash"; t "createdOn"].

Definition messageRecord (message : IMessage) : string * list (Node DataProp) :=
  (id (header message),
   [ HashPopover [("textColor", AText "secondary")] (author (header message));
     Text (type (header message));
     HashPopover [("textColor", AText "secondary")] (datahash (header message));
     Text (formatDate (created (header message))) ]).

Definition messageRecords (s : State) : list (string * list (Node DataProp)) :=
  map messageRecord (messages s).

(** The three summary cards, in order. *)
Definition summaryPanels (s : State) (random : JSMath.double)
  : list (Node DataProp) :=
  [ summaryPanel (t "networkMembers") (NumberText (networkMembers random));
    summaryPanel (t "messages")
      (NumberText (if nonzero (length (messages s))
                   then default NaN (sequence <$> messages s !! 0%nat)
                   else Num 0));
    summaryPanel (t "transactions")
      (NumberText (if nonzero (length (txSequence s))
                   then default NaN (transaction_sequence <$> txSequence s !! 0%nat)
                   else Num 0)) ].

(** What the component returns for state [s] when the render's call of
    [Math.random()] returns [random]. *)
Definition render (s : State) (random : JSMath.double) : Node DataProp :=
  if loading s then
    Element "Box" [] [] [Element "CircularProgress" [] [] []]
  else
    Fragment
      [ Element "Grid" [] []
          [ Element "Grid" [] [] [Element "Typography" [] [] [Text (t "explorer")]];
            Element "Grid" [] []
              (map (fun c => Element "Grid" [] [] [c]) (summaryPanels s random));
            Element "Grid" [] []
              [ Element "Grid" [] []
                  [DataTable
                     [("minHeight", AText "300px");
                      ("maxHeight", AText "calc(100vh - 340px)");
                      ("header", AText (t "latestMessages"))]
                     messageColumnHeaders (messageRecords s) None];
                Element "Grid" [] []
                  [Element "RecentTransactions" []
                     [("transactions", transactions_prop (transactions s))] []] ] ] ].

End View.

End Dashboard.

(** ** MessageDetails: the slide-over panel of one message *)
Module MessageDetails.

Import Interfaces.

(** The component's props ([onClose] is a callback of the parent) and the
    namespace it reads from the context. *)
Record Props := {
  message : IMessage;
  open : bool;
  selectedNamespace : string;
}.

Record State := {
  loading : bool;
  txId : option string;
}.

Definition initial : State := {| loading := false; txId := None |}.

Inductive Call :=
| setLoading (b : bool)
| setTxId (v : option string).

Definition reduce (s : State) (c : Call) : State :=
  match c with
  | setLoading b => {| loading := b; txId := txId s |}
  | setTxId v => {| loading := loading s; txId := v |}
  end.

Definition run (s : State) (cs : list Call) : State := fold_left reduce cs s.

Definition batchRequest (p : Props) : Request := {|
  path := "/api/v1/namespaces/" +:+ selectedNamespace p +:+ "/batches/"
          +:+ batchID (message p);
  query := [];
|}.

Definition effect (p : Props) : list Call * Request :=
  ([setLoading true], batchRequest p).

(** [.then(...).finally(...)] of the batch fetch. *)
Definition settled (r : FetchResult IBatch) : list Call :=
  match r with
  | Response true (Some batch) => [setTxId (Some (payload_tx_id batch))]
  | _ => []
  end ++ [setLoading false].

(** The function-valued props of the view's elements; [history_push url m o]
    is [history.push(url, { props: { message: m, open: o } })]. *)
Inductive Handler :=
| history_push (url : string) (message : IMessage) (open : bool)
| onClose.

Section View.

Variable t : string -> string.
Variable formatDate : string -> string.

Definition detailItem (label : string) (value : Node Handler) : Node Handler :=
  Fragment
    [ Element "Grid" [] [] [Element "Typography" [] [] [Text label]];
      Element "Grid" [] [] [value] ].

Definition HashPopover (address : string) : Node Handler :=
  Element "HashPopover" [("address", AText address)] [] [].

Definition copyableHash (hash : string) : Node Handler :=
  Element "Grid" [] []
    [ Element "Grid" [] []
        [Element "Typography" [("title", AText hash)] [] [Text hash]];
      Element "Grid" [] []
        [ Element "CopyToClipboard" [("text", AText hash)] []
            [Element "Button" [] [] [Text (t "copy")]] ] ].

(** [pinned(txType, txId)], closed over the props [p].  [txId && (...)] is
    the element when [txId] is truthy and renders nothing otherwise. *)
Definition pinned (p : Props) (txType : string) (txId : option string)
  : Node Handler :=
  Element "Grid" [] []
    [ Element "Grid" [] []
        [ Element "Typography" [] []
            [Text (if String.eqb txType "pin" then t "yes" else t "no")] ];
      if truthy txId then
        Element "Grid" [] []
          [ Element "Button" []
              [("onClick",
                history_push ("/transactions/" +:+ default "" txId)
                  (message p) (open p))]
              [Text (t "viewTx")] ]
      else Nothing ].

(** What the component returns for props [p] and state [s]. *)
Definition render (p : Props) (s : State) : Node Handler :=
  if loading s then
    Element "Box" [] [] [Element "CircularProgress" [] [] []]
  else
    let h := header (message p) in
    Fragment
      [ Element "DisplaySlide" [("open", AFlag (open p))] [("onClose", onClose)]
          [ Element "Grid" [] []
              [ Element "Grid" [] []
                  [Element "Typography" [] [] [Text (t "messageDetail")]];
                Element "Grid" [] []
                  [ Element "Grid" [] [] [detailItem (t "id") (HashPopover (id h))];
                    Element "Grid" [] [] [detailItem (t "topic") (Text (topic h))];
                    Element "Grid" [] [] [detailItem (t "type") (Text (type h))];
                    Element "Grid" [] [] [detailItem (t "context") (Text (context h))];
                    Element "Grid" [] []
                      [detailItem (t "author") (HashPopover (author h))];
                    Element "Grid" [] []
                      [detailItem (t "createdOn") (Text (formatDate (created h)))] ];
                Element "Divider" [] [] [];
                Element "Grid" [] []
                  [ Element "Grid" [] []
                      [detailItem (t "pinned?") (pinned p (tx_type (tx h)) (txId s))];
                    Element "Grid" [] []
                      [detailItem (t "dataHash") (copyableHash (datahash h))] ] ] ] ].

End View.

End MessageDetails.

(** ** The page guard in binary64

    The integers of [JS.number] stand for doubles.  [pageGuard] is the
    condition of [handleChangePage] computed as the source computes it, on
    doubles, with the rounded sum and product; on safe integers it decides as
    the integer condition does ([pageGuard_on_safe_integers]). *)
Module Binary64.

(** The normal form of the non-zero integer [z]: sign, 53 bits of mantissa
    and the exponent that goes with them. *)
Definition canon (z : Z) : JSMath.double :=
  SpecFloat.S754_finite (z <? 0)
    (Z.to_pos (Z.abs z * 2 ^ (53 - SpecFloat.Zdigits2 z)))
    (SpecFloat.Zdigits2 z - 53).

(** The double [x] has the integer value [z]; 0 is a zero of either sign. *)
Definition represents (x : JSMath.double) (z : Z) : Prop :=
  (z = 0 /\ exists s, x = SpecFloat.S754_zero s) \/ (z <> 0 /\ x = canon z).

(** [newPage > currentPage &&
     rowsPerPage * (currentPage + 1) >= tokenTransfersTotal] *)
Definition pageGuard
  (newPage currentPage rowsPerPage tokenTransfersTotal : JSMath.double) : bool :=
  JSMath.greater newPage currentPage &&
  JSMath.greaterEq
    (JSMath.times rowsPerPage (JSMath.plus currentPage JSMath.one))
    tokenTransfersTotal.

End Binary64.

(** ** Observations used by the properties of whole renders and traces *)
Module Observe.

(** The scalar attributes of a tree with the tag of the element that carries
    them, left to right; the attributes of a table are listed under the tag
    "DataTable". *)
Fixpoint attrs_of {P} (n : Node P) : list (string * string * Attr) :=
  match n with
  | Element tag as_ _ cs =>
      map (fun ka => (tag, fst ka, snd ka)) as_ ++
      (fix go (l : list (Node P)) : list (string * string * Attr) :=
         match l with
         | [] => []
         | c :: r => attrs_of c ++ go r
         end) cs
  | DataTable as_ _ recs pg =>
      map (fun ka => ("DataTable", fst ka, snd ka)) as_ ++
      (fix rows (l : list (string * list (Node P))) : list (string * string * Attr) :=
         match l with
         | [] => []
         | (_, cols) :: r =>
             (fix go (l : list (Node P)) : list (string * string * Attr) :=
                match l with
                | [] => []
                | c :: r => attrs_of c ++ go r
                end) cols ++ rows r
         end) recs ++
      match pg with Some p => attrs_of p | None => [] end
  | _ => []
  end.

(** A fetch that brings no data: the promise rejects, the status is not 2xx,
    or the body does not parse. *)
Definition noData {B} (r : FetchResult B) : bool :=
  match r with
  | Response true (Some _) => false
  | _ => true
  end.

(** An event as the pagination widget can produce it: a page that is a
    non-negative integer, a page size that is one of the options.  The
    settling of a request and a change of the route are always possible. *)
Definition fromWidget (e : AccountDetails.Event) : bool :=
  match e with
  | AccountDetails.PageChange (Num k) => 0 <=? k
  | AccountDetails.PageChange NaN => false
  | AccountDetails.RowsPerPageChange event =>
      bool_decide (ToNumber (AccountDetails.target_value event)
                     ∈ AccountDetails.PAGE_LIMITS)
  | _ => true
  end.

(** An event that brings no transfers data: every event but a 2xx transfers
    response with a body that parses. *)
Definition beforeData (e : AccountDetails.Event) : bool :=
  match e with
  | AccountDetails.TransfersSettles _ res => noData res
  | _ => true
  end.

(** Before the first page of transfers has arrived: page 0, count 0 and an
    allowed page size. *)
Definition awaitingData (c : AccountDetails.Component) : Prop :=
  AccountDetails.currentPage (AccountDetails.state c) = Num 0 /\
  AccountDetails.tokenTransfersTotal (AccountDetails.state c) = Num 0 /\
  AccountDetails.rowsPerPage (AccountDetails.state c) ∈ AccountDetails.PAGE_LIMITS.

(** The page is a non-negative integer and the page size one of the
    options. *)
Definition pagedState (s : AccountDetails.State) : Prop :=
  (exists cp, AccountDetails.currentPage s = Num cp /\ 0 <= cp) /\
  AccountDetails.rowsPerPage s ∈ AccountDetails.PAGE_LIMITS.

(** A transfers request asks for an allowed number of rows from a
    non-negative offset. *)
Definition pagedRequest (r : Request) : Prop :=
  exists l k,
    param "limit" (query r) = Some (QNumber (Num l)) /\
    Num l ∈ AccountDetails.PAGE_LIMITS /\
    param "skip" (query r) = Some (QNumber (Num k)) /\ 0 <= k.

Definition paged (c : AccountDetails.Component) : Prop :=
  pagedState (AccountDetails.state c) /\
  forall r, AccountDetails.TransfersFetch r ∈ AccountDetails.inflight c ->
            pagedRequest r.

(** While the spinner is shown, an account request is in flight. *)
Definition spinnerHasRequest (c : AccountDetails.Component) : Prop :=
  AccountDetails.loading (AccountDetails.state c) = true ->
  exists r, AccountDetails.AccountFetch r ∈ AccountDetails.inflight c.

(** The text of an address cell: the placeholder for an address that is
    missing or empty, nothing for one that is shown as a hash. *)
Definition addressLeaves (a : option string) : list Leaf :=
  if truthy a then [] else [LText "---"].

(** A double close to [(2n + 1) / 2000], the middle of the [n]-th of a
    thousand equal parts of the unit interval. *)
Definition sampleFor (n : Z) : JSMath.double :=
  SpecFloat.SFdiv 53 1024
    (SpecFloat.binary_normalize 53 1024 (2 * n + 1) 0 false)
    (SpecFloat.binary_normalize 53 1024 2000 0 false).

(** [sampleFor n] is a possible sample and its counter is [n]. *)
Definition sampleCounts (n : Z) : bool :=
  JSMath.is_random (sampleFor n) &&
  bool_decide (Dashboard.networkMembers (sampleFor n) = Num n).

(** The settling of the batch request issued for the props [p], from the
    state [s] on: the effect's calls, then the promise chain's. *)
Definition batchSettles (p : MessageDetails.Props) (s : MessageDetails.State)
  (res : FetchResult Interfaces.IBatch) : MessageDetails.State :=
  MessageDetails.run (MessageDetails.run s (fst (MessageDetails.effect p)))
    (MessageDetails.settled res).

(** The hash display of an address cell: the short, primary-coloured hash of
    an address that is present, nothing for one that is missing or empty. *)
Definition addressAttrs (a : option string) : list (string * string * Attr) :=
  match a with
  | Some i =>
      if String.eqb i "" then []
      else [("HashPopover", "shortHash", AFlag true);
            ("HashPopover", "textColor", AText "primary");
            ("HashPopover", "address", AText i)]
  | None => []
  end.

(** The button of the pinned indicator for the resolved id [i]: it pushes
    [/transactions/<i>] with the message and the open flag of the props. *)
Definition viewTx (p : MessageDetails.Props) (i : string)
  : string * string * MessageDetails.Handler :=
  ("Button", "onClick",
   MessageDetails.history_push ("/transactions/" +:+ i)
     (MessageDetails.message p) (MessageDetails.open p)).

End Observe.

(** ** Sample data for the examples *)
Module Samples.

Import Interfaces.

(** A message, for the examples. *)
Definition someMessage : IMessage := {|
  header := {| id := "m1"; author := "0x01"; type := "broadcast";
               topic := "t"; context := "c"; datahash := "0xh";
               created := "2021-11-02T00:00:00Z";
               tx := {| tx_type := "pin"; tx_id := "tx1" |} |};
  sequence := Num 42;
  batchID := "b1";
|}.

Definition someTransaction : ITransaction := {|
  transaction_id := "tx1";
  transaction_sequence := Num 7;
  transaction_created := "2021-11-02T00:00:00Z";
|}.

Definition someAccountParams : AccountDetails.Props := {|
  AccountDetails.selectedNamespace := "default";
  AccountDetails.poolProtocolID := "p1";
|}.

Definition someAccount : AccountDetails.ITokenAccount := {|
  AccountDetails.poolProtocolId := "p1";
  AccountDetails.tokenIndex := None;
  AccountDetails.connector := "erc1155";
  AccountDetails.key := "0x01";
  AccountDetails.balance := "10";
  AccountDetails.updated := "2021-11-02T00:00:00Z";
|}.

Definition someTransfer : AccountDetails.ITokenTransfer := {|
  AccountDetails.tx_id := "tx1";
  AccountDetails.type := "mint";
  AccountDetails.amount := "10";
  AccountDetails.from := None;
  AccountDetails.to := Some "0x01";
  AccountDetails.created := "2021-11-02T00:00:00Z";
|}.


Definition someMessageProps : MessageDetails.Props := {|
  MessageDetails.message := someMessage;
  MessageDetails.open := true;
  MessageDetails.selectedNamespace := "default";
|}.

End Samples.

(** * Properties *)

(** ** The model on concrete inputs *)

Example unary_plus_on_option_text : ToNumber (VString "10") = Num 10.
Proof. reflexivity. Qed.

Example unary_plus_on_option_number : ToNumber (VNumber (Num 5)) = Num 5.
Proof. reflexivity. Qed.

Example unary_plus_on_other_text : ToNumber (VString "ten") = NaN.
Proof. reflexivity. Qed.

Example first_transfers_request :
  AccountDetails.transfersRequest Samples.someAccountParams AccountDetails.initial =
    {| path := "/api/v1/namespaces/default/tokens/transfers";
       query := [("poolprotocolid", QText "p1"); ("limit", QNumber (Num 5));
                 ("skip", QNumber (Num 0)); ("count", QBare)] |}.
Proof. reflexivity. Qed.

Example second_page_request :
  let c := AccountDetails.step
             {| AccountDetails.props := Samples.someAccountParams;
                AccountDetails.state := AccountDetails.onPage 0 7;
                AccountDetails.inflight := [];
                AccountDetails.console := [] |}
             (AccountDetails.PageChange (Num 1)) in
  AccountDetails.inflight c =
    [AccountDetails.TransfersFetch
       {| path := "/api/v1/namespaces/default/tokens/transfers";
          query := [("poolprotocolid", QText "p1"); ("limit", QNumber (Num 5));
                    ("skip", QNumber (Num 5)); ("count", QBare)] |}].
Proof. reflexivity. Qed.

Example failed_account_fetch_is_logged :
  AccountDetails.logged (AccountDetails.accountSettled (Response false None))
    = ["error fetching token pool"].
Proof. reflexivity. Qed.

Example burn_icon : AccountDetails.iconChild "burn" = AccountDetails.icon "FireIcon".
Proof. vm_compute. reflexivity. Qed.

Example unknown_icon : AccountDetails.iconChild "approve" = Nothing.
Proof. vm_compute. reflexivity. Qed.

Example largest_sample_counts_999 :
  Dashboard.networkMembers (SpecFloat.S754_finite false 9007199254740991 (-53))
    = Num 999.
Proof. vm_compute. reflexivity. Qed.

Example smallest_sample_counts_0 :
  Dashboard.networkMembers (SpecFloat.S754_finite false 1 (-1074)) = Num 0.
Proof. vm_compute. reflexivity. Qed.

Example all_ok_populates_everything :
  let s := Dashboard.run Dashboard.initial
             (Dashboard.settled (Response true (Some [Samples.someMessage]))
                (Response true (Some [Samples.someTransaction]))
                (Response true (Some []))) in
  Dashboard.messages s = [Samples.someMessage] /\
  Dashboard.txSequence s = [Samples.someTransaction] /\
  Dashboard.transactions s = [] /\
  Dashboard.loading s = false.
Proof. split_and!; reflexivity. Qed.

(** ** AccountDetails: the pagination controller *)
Section AccountDetailsPagination.

Import AccountDetails.

(** The guard of [handleChangePage] on integer pages, sizes and counts. *)
Lemma handleChangePage_guard (s : State) (next cp rpp total : Z) :
  currentPage s = Num cp -> rowsPerPage s = Num rpp ->
  tokenTransfersTotal s = Num total ->
  handleChangePage s (Num next) =
    if (cp <? next) && (total <=? rpp * (cp + 1))
    then [] else [setCurrentPage (Num next)].
Proof.
  intros Hcp Hrpp Htot. unfold handleChangePage.
  rewrite Hcp, Hrpp, Htot. reflexivity.
Qed.

(** Handlers make no call that the transfers effect does not see: the state
    after a page-change event is the handler's calls applied to the state. *)
Lemma state_commit (c : Component) (cs : list Call) :
  state (commit c cs) = run (state c) cs.
Proof.
  unfold commit, transfersEffect.
  destruct (transfersDepsChanged _ _); reflexivity.
Qed.

Lemma state_PageChange (c : Component) (n : number) :
  state (step c (PageChange n)) = run (state c) (handleChangePage (state c) n).
Proof. apply state_commit. Qed.

Lemma currentPage_set (s : State) (n : number) :
  currentPage (run s [setCurrentPage n]) = n.
Proof. reflexivity. Qed.

Lemma inflight_commit (c : Component) (cs : list Call) :
  inflight (commit c cs) =
    inflight c ++
    (if transfersDepsChanged (state c) (run (state c) cs)
     then [TransfersFetch (transfersRequest (props c) (run (state c) cs))]
     else []).
Proof.
  unfold commit, transfersEffect.
  destruct (transfersDepsChanged _ _); simpl; [reflexivity | ].
  symmetry. apply app_nil_r.
Qed.

Lemma props_commit (c : Component) (cs : list Call) :
  props (commit c cs) = props c.
Proof. unfold commit. destruct (transfersDepsChanged _ _); reflexivity. Qed.

Lemma transfersDepsChanged_true (old new : State) :
  rowsPerPage new <> rowsPerPage old \/ currentPage new <> currentPage old ->
  transfersDepsChanged old new = true.
Proof.
  intros H. unfold transfersDepsChanged.
  apply orb_true_iff.
  destruct H as [H | H]; [left | right];
    apply negb_true_iff, bool_decide_eq_false; exact H.
Qed.

Lemma run_rowsPerPage (s : State) (event : ChangeEvent) :
  let s' := run s (handleChangeRowsPerPage event) in
  currentPage s' = Num 0 /\ rowsPerPage s' = ToNumber (target_value event).
Proof. split; reflexivity. Qed.

(** C3. For an allowed page size [n], [setRowsPerPage(n)] leaves the
    component on page 0 with [rowsPerPage = n]; the transfers request of the
    resulting render has [limit = n] and [skip = 0], and it is issued, as the
    one new request, whenever the page size or the page actually changed. *)
Theorem setRowsPerPage_resets_page
  (c : Component) (n : Z) (event : ChangeEvent) :
  Num n ∈ PAGE_LIMITS ->
  ToNumber (target_value event) = Num n ->
  let c' := step c (RowsPerPageChange event) in
  let r := transfersRequest (props c') (state c') in
  currentPage (state c') = Num 0 /\
  rowsPerPage (state c') = Num n /\
  param "limit" (query r) = Some (QNumber (Num n)) /\
  param "skip" (query r) = Some (QNumber (Num 0)) /\
  (inflight c' = inflight c \/ inflight c' = inflight c ++ [TransfersFetch r]) /\
  (rowsPerPage (state c) <> Num n \/ currentPage (state c) <> Num 0 ->
   inflight c' = inflight c ++ [TransfersFetch r]).
Proof.
  intros _ Hn c' r. subst c' r. cbn [step].
  rewrite state_commit, props_commit, inflight_commit.
  destruct (run_rowsPerPage (state c) event) as [Hcp Hrpp].
  rewrite Hn in Hrpp.
  set (s' := run (state c) (handleChangeRowsPerPage event)) in *.
  assert (Hskip : mul (rowsPerPage s') (currentPage s') = Num 0).
  { rewrite Hcp, Hrpp. simpl. f_equal. lia. }
  split_and!.
  - exact Hcp.
  - exact Hrpp.
  - change (Some (QNumber (rowsPerPage s')) = Some (QNumber (Num n))).
    rewrite Hrpp. reflexivity.
  - change (Some (QNumber (mul (rowsPerPage s') (currentPage s')))
            = Some (QNumber (Num 0))).
    rewrite Hskip. reflexivity.
  - destruct (transfersDepsChanged (state c) s'); [right | left].
    + reflexivity.
    + apply app_nil_r.
  - intros Hch. rewrite transfersDepsChanged_true; [reflexivity | ].
    rewrite Hcp, Hrpp. destruct Hch as [H | H]; [left | right]; congruence.
Qed.

(** The claim on a freshly mounted view whose size selector reports "10". *)
Lemma setRowsPerPage_resets_page_witness :
  let c := mount {| selectedNamespace := "default"; poolProtocolID := "p1" |} in
  let c' := step c (RowsPerPageChange {| target_value := VString "10" |}) in
  let r := transfersRequest (props c') (state c') in
  currentPage (state c') = Num 0 /\
  rowsPerPage (state c') = Num 10 /\
  param "limit" (query r) = Some (QNumber (Num 10)) /\
  param "skip" (query r) = Some (QNumber (Num 0)) /\
  (inflight c' = inflight c \/ inflight c' = inflight c ++ [TransfersFetch r]) /\
  (rowsPerPage (state c) <> Num 10 \/ currentPage (state c) <> Num 0 ->
   inflight c' = inflight c ++ [TransfersFetch r]).
Proof.
  intro c.
  apply (setRowsPerPage_resets_page c 10 {| target_value := VString "10" |}).
  - unfold PAGE_LIMITS. apply list_elem_of_In. simpl. right. left. reflexivity.
  - reflexivity.
Defined.


(** With the count at 0, a page that is not negative and a page size that is
    not negative, the guard refuses every page above the current one. *)
Lemma forward_advance_refused_at_zero_total
  (s : State) (next : number) (cp rpp : Z) :
  tokenTransfersTotal s = Num 0 ->
  currentPage s = Num cp ->
  rowsPerPage s = Num rpp ->
  0 <= cp -> 0 <= rpp ->
  gt next (currentPage s) = true ->
  handleChangePage s next = [].
Proof.
  intros Htot Hcp Hrpp Hcp0 Hrpp0 Hgt.
  unfold handleChangePage. rewrite Hgt, Hcp, Hrpp, Htot. simpl.
  destruct (Z.leb_spec 0 (rpp * (cp + 1))) as [_ | Hneg]; [reflexivity | nia].
Qed.

(** C10. [handleChangePage] has no lower bound: every request for a page
    [next <= currentPage] is accepted, negative ones included, whatever the
    count; and once a negative page is accepted the transfers request of the
    resulting render, issued as the new request when the page changed,
    carries the negative [skip = rowsPerPage * currentPage]. *)
Theorem setPage_has_no_lower_bound (c : Component) (next cp rpp : Z) :
  currentPage (state c) = Num cp ->
  rowsPerPage (state c) = Num rpp ->
  next <= cp ->
  let c' := step c (PageChange (Num next)) in
  let r := transfersRequest (props c') (state c') in
  handleChangePage (state c) (Num next) = [setCurrentPage (Num next)] /\
  currentPage (state c') = Num next /\
  (next < 0 -> 0 < rpp ->
   param "skip" (query r) = Some (QNumber (Num (rpp * next))) /\
   rpp * next < 0 /\
   (next < cp -> inflight c' = inflight c ++ [TransfersFetch r])).
Proof.
  intros Hcp Hrpp Hle c' r. subst c' r. cbn [step].
  assert (Hacc : handleChangePage (state c) (Num next) = [setCurrentPage (Num next)]).
  { unfold handleChangePage. rewrite Hcp. simpl.
    destruct (Z.ltb_spec cp next) as [Hlt | _]; [lia | reflexivity]. }
  rewrite state_commit, props_commit, inflight_commit, Hacc.
  set (s' := run (state c) [setCurrentPage (Num next)]).
  assert (Hcp' : currentPage s' = Num next) by reflexivity.
  assert (Hrpp' : rowsPerPage s' = Num rpp) by exact Hrpp.
  split_and!; try reflexivity.
  intros Hneg Hpos. split_and!.
  - change (Some (QNumber (mul (rowsPerPage s') (currentPage s')))
            = Some (QNumber (Num (rpp * next)))).
    rewrite Hcp', Hrpp'. reflexivity.
  - nia.
  - intros Hlt. rewrite transfersDepsChanged_true; [reflexivity | ].
    right. rewrite Hcp', Hcp. intros Heq. injection Heq as Heq. lia.
Qed.

(** The claim on the freshly mounted view, asked for page -1. *)
Lemma setPage_has_no_lower_bound_witness :
  let c := mount {| selectedNamespace := "default"; poolProtocolID := "p1" |} in
  let c' := step c (PageChange (Num (-1))) in
  let r := transfersRequest (props c') (state c') in
  handleChangePage (state c) (Num (-1)) = [setCurrentPage (Num (-1))] /\
  currentPage (state c') = Num (-1) /\
  (-1 < 0 -> 0 < 5 ->
   param "skip" (query r) = Some (QNumber (Num (5 * -1))) /\
   5 * -1 < 0 /\
   (-1 < 0 -> inflight c' = inflight c ++ [TransfersFetch r])).
Proof.
  intro c.
  apply (setPage_has_no_lower_bound c (-1) 0 5); try reflexivity; lia.
Defined.

End AccountDetailsPagination.

(** ** AccountDetails: the two fetches and what is rendered *)
Section AccountDetailsView.

Import AccountDetails.

Variable t : string -> string.
Variable formatDate : string -> string.

Lemma loading_after_finally (s : State) (cs : list Call) :
  loading (run s (cs ++ [setLoading false])) = false.
Proof. unfold run. rewrite fold_left_app. reflexivity. Qed.

Lemma remove_first_other (f g : Fetch) (l : list Fetch) :
  g <> f -> g ∈ l -> g ∈ remove_first f l.
Proof.
  intros Hne. induction l as [| h l IH]; intros Hin; simpl.
  - exact Hin.
  - apply elem_of_cons in Hin. case_bool_decide as Hfh.
    + destruct Hin as [-> | Hin]; [congruence | exact Hin].
    + apply elem_of_cons. destruct Hin as [-> | Hin]; [left | right]; auto.
Qed.

Lemma transfersSettled_never_raises (res : FetchResult TransfersBody) :
  setLoading true ∉ transfersSettled res.
Proof.
  unfold transfersSettled, transfersThen. intros Hin.
  destruct res as [| [|] [body|]]; simpl in Hin;
    repeat (apply elem_of_cons in Hin; destruct Hin as [Hin | Hin];
            [discriminate Hin | ]);
    inversion Hin.
Qed.

(** C5. Both fetches write the one [loading] cell.  When the transfers fetch
    settles, whatever its outcome, the flag is cleared although the account
    fetch is still in flight.  Only the account effect raises the flag
    before its request; the transfers effect makes no call before its request
    and never raises the flag when it settles.  After mounting, the flag is
    up and both requests are in flight. *)
Theorem transfers_completion_clears_shared_flag
  (c : Component) (r ra : Request) (res : FetchResult TransfersBody) :
  TransfersFetch r ∈ inflight c ->
  AccountFetch ra ∈ inflight c ->
  let c' := step c (TransfersSettles r res) in
  loading (state c') = false /\
  AccountFetch ra ∈ inflight c' /\
  (forall p, fst (accountEffect p) = [setLoading true]) /\
  (forall p s, fst (transfersEffect p s) = []) /\
  (forall res', setLoading true ∉ transfersSettled res') /\
  (forall p, loading (state (mount p)) = true /\
             inflight (mount p) =
               [AccountFetch (accountRequest p);
                TransfersFetch (transfersRequest p initial)]).
Proof.
  intros Hr Hra c'. subst c'. cbn [step].
  rewrite bool_decide_eq_true_2 by exact Hr.
  rewrite state_commit, inflight_commit.
  split_and!.
  - apply loading_after_finally.
  - apply elem_of_app. left. simpl.
    apply remove_first_other; [discriminate | exact Hra].
  - reflexivity.
  - reflexivity.
  - apply transfersSettled_never_raises.
  - intros p. split; reflexivity.
Qed.

(** C7. When the account fetch answers 2xx with an empty list,
    [tokenAccount] is [undefined], the flag is cleared, nothing is logged,
    and the view returns the empty fragment, which shows nothing. *)
Theorem absent_account_renders_nothing (c : Component) (r : Request) :
  AccountFetch r ∈ inflight c ->
  let c' := step c (AccountSettles r (Response true (Some []))) in
  tokenAccount (state c') = None /\
  loading (state c') = false /\
  console c' = console c /\
  render t formatDate (props c') (state c') = Fragment [] /\
  leaves (render t formatDate (props c') (state c')) = [].
Proof.
  intros Hr c'. subst c'. cbn [step].
  rewrite bool_decide_eq_true_2 by exact Hr.
  assert (Hs : state (commit (settle c (AccountFetch r))
                        (accountSettled (Response true (Some []))))
               = run (state c) [setTokenAccount None; setLoading false]).
  { rewrite state_commit. reflexivity. }
  assert (Hc : console (commit (settle c (AccountFetch r))
                          (accountSettled (Response true (Some []))))
               = console c).
  { unfold commit. destruct (transfersDepsChanged _ _); simpl; apply app_nil_r. }
  unfold render. rewrite Hs. split_and!; try reflexivity. exact Hc.
Qed.

End AccountDetailsView.

(** The claim C5 on the freshly mounted view whose transfers fetch fails. *)
Lemma transfers_completion_clears_shared_flag_witness :
  let p := {| AccountDetails.selectedNamespace := "default";
              AccountDetails.poolProtocolID := "p1" |} in
  let c := AccountDetails.mount p in
  let c' := AccountDetails.step c
              (AccountDetails.TransfersSettles
                 (AccountDetails.transfersRequest p AccountDetails.initial)
                 Rejected) in
  AccountDetails.loading (AccountDetails.state c') = false /\
  AccountDetails.AccountFetch (AccountDetails.accountRequest p)
    ∈ AccountDetails.inflight c' /\
  (forall p, fst (AccountDetails.accountEffect p) = [AccountDetails.setLoading true]) /\
  (forall p s, fst (AccountDetails.transfersEffect p s) = []) /\
  (forall res', AccountDetails.setLoading true ∉ AccountDetails.transfersSettled res') /\
  (forall p, AccountDetails.loading (AccountDetails.state (AccountDetails.mount p)) = true /\
             AccountDetails.inflight (AccountDetails.mount p) =
               [AccountDetails.AccountFetch (AccountDetails.accountRequest p);
                AccountDetails.TransfersFetch
                  (AccountDetails.transfersRequest p AccountDetails.initial)]).
Proof.
  intros p c.
  apply (transfers_completion_clears_shared_flag c
           (AccountDetails.transfersRequest p AccountDetails.initial)
           (AccountDetails.accountRequest p) Rejected).
  - apply list_elem_of_In. simpl. right. left. reflexivity.
  - apply list_elem_of_In. simpl. left. reflexivity.
Defined.

(** The claim C7 on the freshly mounted view, with identity translation. *)
Lemma absent_account_renders_nothing_witness :
  let p := {| AccountDetails.selectedNamespace := "default";
              AccountDetails.poolProtocolID := "p1" |} in
  let c := AccountDetails.mount p in
  let c' := AccountDetails.step c
              (AccountDetails.AccountSettles (AccountDetails.accountRequest p)
                 (Response true (Some []))) in
  AccountDetails.tokenAccount (AccountDetails.state c') = None /\
  AccountDetails.loading (AccountDetails.state c') = false /\
  AccountDetails.console c' = AccountDetails.console c /\
  AccountDetails.render (fun k => k) (fun d => d)
    (AccountDetails.props c') (AccountDetails.state c') = Fragment [] /\
  leaves (AccountDetails.render (fun k => k) (fun d => d)
            (AccountDetails.props c') (AccountDetails.state c')) = [].
Proof.
  intros p c.
  apply (absent_account_renders_nothing (fun k => k) (fun d => d) c
           (AccountDetails.accountRequest p)).
  apply list_elem_of_In. simpl. left. reflexivity.
Defined.

(** ** AccountDetails: the icon of a transfer row *)
Section TransferIcon.

Import AccountDetails.

Variable t : string -> string.
Variable formatDate : string -> string.

Lemma transferIconMap_lookup (k : string) :
  transferIconMap !! k =
    if bool_decide (k = "burn") then Some (icon "FireIcon")
    else if bool_decide (k = "mint") then Some (icon "StamperIcon")
    else if bool_decide (k = "transfer") then Some (icon "SwapHorizontalIcon")
    else None.
Proof.
  unfold transferIconMap.
  repeat case_bool_decide; subst; simplify_map_eq; reflexivity.
Qed.

Lemma transferIconMap_unknown (k : string) :
  k ∉ ["mint"; "burn"; "transfer"] -> transferIconMap !! k = None.
Proof.
  intros Hk. rewrite transferIconMap_lookup.
  repeat case_bool_decide; subst; try reflexivity; exfalso; apply Hk;
    apply list_elem_of_In; simpl; tauto.
Qed.

(** C8, as stated, fails on the names that every object literal inherits: the
    transfer type "constructor" is none of the three keys, yet the lookup
    answers with the inherited member, not with [undefined]. *)
Lemma inherited_member_is_not_undefined :
  ("constructor" ∉ ["mint"; "burn"; "transfer"]) /\
  JSObject.get transferIconMap "constructor" = JSObject.Inherited "constructor" /\
  (JSObject.get transferIconMap "constructor" <> JSObject.Undefined) /\
  iconChild "constructor" = Foreign "constructor".
Proof.
  assert (Hk : "constructor" ∉ ["mint"; "burn"; "transfer"]).
  { intros Hin. apply list_elem_of_In in Hin. simpl in Hin.
    destruct Hin as [H | [H | [H | []]]]; discriminate H. }
  assert (Hg : JSObject.get transferIconMap "constructor"
               = JSObject.Inherited "constructor").
  { unfold JSObject.get. rewrite (transferIconMap_unknown _ Hk). reflexivity. }
  split_and!.
  - exact Hk.
  - exact Hg.
  - rewrite Hg. discriminate.
  - unfold iconChild. rewrite Hg. reflexivity.
Qed.

(** C8, amended.  The first cell of a transfer's row shows
    [transferIconMap[type]] next to the transaction hash.  For a type that is
    none of the keys mint, burn, transfer the lookup never yields an icon
    (there is no fallback): it is [undefined], and the cell shows nothing,
    unless the type names a member inherited from [Object.prototype], in
    which case the lookup yields that member.  For the three keys it yields
    the icon bound to the key. *)
Theorem icon_lookup_of_transfer_type (tr : ITokenTransfer) :
  snd (tokenTransfersRecord t formatDate tr) !! 0%nat =
    Some (Element "Grid" [] []
            [ Element "Grid" [] [] [iconChild (type tr)];
              Element "Grid" [] []
                [HashPopover [("shortHash", AFlag true); ("textColor", AText "primary")]
                   (tx_id tr)] ]) /\
  (type tr ∉ ["mint"; "burn"; "transfer"] ->
     (forall i, JSObject.get transferIconMap (type tr) <> JSObject.Own i) /\
     (type tr ∉ JSObject.ObjectPrototype ->
        JSObject.get transferIconMap (type tr) = JSObject.Undefined /\
        iconChild (type tr) = Nothing) /\
     (type tr ∈ JSObject.ObjectPrototype ->
        JSObject.get transferIconMap (type tr) = JSObject.Inherited (type tr))) /\
  JSObject.get transferIconMap "mint" = JSObject.Own (icon "StamperIcon") /\
  JSObject.get transferIconMap "burn" = JSObject.Own (icon "FireIcon") /\
  JSObject.get transferIconMap "transfer" = JSObject.Own (icon "SwapHorizontalIcon").
Proof.
  split_and!.
  - reflexivity.
  - intros Hk. unfold iconChild, JSObject.get.
    rewrite (transferIconMap_unknown _ Hk).
    split_and!.
    + intros i. case_bool_decide; discriminate.
    + intros Hp. rewrite bool_decide_eq_false_2 by exact Hp. split; reflexivity.
    + intros Hp. rewrite bool_decide_eq_true_2 by exact Hp. reflexivity.
  - unfold JSObject.get. rewrite transferIconMap_lookup. reflexivity.
  - unfold JSObject.get. rewrite transferIconMap_lookup. reflexivity.
  - unfold JSObject.get. rewrite transferIconMap_lookup. reflexivity.
Qed.

End TransferIcon.

(** The amended claim C8 on a transfer of the unsupported type "approve". *)
Lemma icon_lookup_of_transfer_type_witness :
  let tr := {| AccountDetails.tx_id := "0xabc"; AccountDetails.type := "approve";
               AccountDetails.amount := "1"; AccountDetails.from := None;
               AccountDetails.to := None; AccountDetails.created := "2021-11-02" |} in
  JSObject.get AccountDetails.transferIconMap "approve" = JSObject.Undefined /\
  AccountDetails.iconChild "approve" = Nothing.
Proof.
  intro tr.
  destruct (icon_lookup_of_transfer_type (fun k => k) (fun d => d) tr)
    as (_ & Hunknown & _).
  assert (Hk : AccountDetails.type tr ∉ ["mint"; "burn"; "transfer"]).
  { intros Hin. apply list_elem_of_In in Hin. simpl in Hin.
    destruct Hin as [H | [H | [H | []]]]; discriminate H. }
  destruct (Hunknown Hk) as (_ & Hundef & _).
  apply Hundef.
  intros Hin. apply list_elem_of_In in Hin. simpl in Hin.
  repeat (destruct Hin as [H | Hin]; [discriminate H | ]).
  exact Hin.
Defined.

(** ** Dashboard: the three fetches *)
Section DashboardFetches.

Import Interfaces Dashboard.

Lemma loading_after_settled
  (s : State) (rm : FetchResult (list IMessage))
  (rs rt : FetchResult (list ITransaction)) :
  loading (run s (settled rm rs rt)) = false.
Proof. unfold settled, run. rewrite fold_left_app. reflexivity. Qed.

Lemma onResponses_gate
  (mok sok tok : bool) (mj : option (list IMessage))
  (sj tj : option (list ITransaction)) :
  mok && sok && tok = false -> onResponses mok mj sok sj tok tj = [].
Proof. intros H. unfold onResponses. rewrite H. reflexivity. Qed.

(** C2, as stated, fails: the callback is gated on all three responses.  When
    the messages and transactions requests answer 2xx with data and only the
    sequence probe answers non-2xx, no state is populated: [messages] and
    [transactions] stay empty along with [txSequence]. *)
Lemma successful_responses_are_dropped :
  let s := run (run initial (fst (effect "default" 0)))
             (settled (Response true (Some [Samples.someMessage]))
                      (Response false None)
                      (Response true (Some [Samples.someTransaction]))) in
  messages s = [] /\ transactions s = [] /\ txSequence s = [] /\
  loading s = false.
Proof. split_and!; reflexivity. Qed.

(** C2, amended.  When the three fetches resolve and at least one response
    is non-2xx, no setter but [setLoading(false)] is called: all three
    entities keep the state they had (empty after mounting), the successful
    responses included.  The loading flag is cleared in every case, whatever
    the three outcomes. *)
Theorem any_failure_populates_nothing
  (s : State)
  (mok sok tok : bool) (mj : option (list IMessage))
  (sj tj : option (list ITransaction)) :
  mok = false \/ sok = false \/ tok = false ->
  let s' := run s (settled (Response mok mj) (Response sok sj) (Response tok tj)) in
  settled (Response mok mj) (Response sok sj) (Response tok tj) = [setLoading false] /\
  messages s' = messages s /\
  txSequence s' = txSequence s /\
  transactions s' = transactions s /\
  (forall s0 rm rs rt, loading (run s0 (settled rm rs rt)) = false) /\
  (messages initial = [] /\ txSequence initial = [] /\ transactions initial = []).
Proof.
  intros Hfail s'. subst s'.
  assert (Hgate : mok && sok && tok = false).
  { destruct Hfail as [H | [H | H]]; rewrite H;
      destruct mok, sok, tok; reflexivity. }
  assert (Hs : settled (Response mok mj) (Response sok sj) (Response tok tj)
               = [setLoading false]).
  { unfold settled, allThen. rewrite (onResponses_gate _ _ _ _ _ _ Hgate).
    reflexivity. }
  rewrite Hs. split_and!; try reflexivity.
  intros s0 rm rs rt. apply loading_after_settled.
Qed.

End DashboardFetches.

(** The amended claim C2 on the mounted dashboard whose sequence probe
    answers non-2xx. *)
Lemma any_failure_populates_nothing_witness :
  let s := Dashboard.run Dashboard.initial (fst (Dashboard.effect "default" 0)) in
  let s' := Dashboard.run s
              (Dashboard.settled (Response true (Some [Samples.someMessage]))
                 (Response false None) (Response true (Some []))) in
  Dashboard.settled (Response true (Some [Samples.someMessage]))
    (Response false None) (Response true (Some [])) = [Dashboard.setLoading false] /\
  Dashboard.messages s' = Dashboard.messages s /\
  Dashboard.txSequence s' = Dashboard.txSequence s /\
  Dashboard.transactions s' = Dashboard.transactions s /\
  (forall s0 rm rs rt,
     Dashboard.loading (Dashboard.run s0 (Dashboard.settled rm rs rt)) = false) /\
  (Dashboard.messages Dashboard.initial = [] /\
   Dashboard.txSequence Dashboard.initial = [] /\
   Dashboard.transactions Dashboard.initial = []).
Proof.
  intros s.
  apply (any_failure_populates_nothing s true false true
           (Some [Samples.someMessage]) None (Some [])).
  right. left. reflexivity.
Defined.

(** ** MessageDetails: the pinned indicator and its navigation action *)
Section MessageDetailsPinned.

Import Interfaces MessageDetails.

Variable t : string -> string.
Variable formatDate : string -> string.

Lemma truthy_spec (v : option string) :
  truthy v = true <-> exists i, v = Some i /\ i <> "".
Proof.
  destruct v as [i |]; simpl.
  - rewrite negb_true_iff, String.eqb_neq. split.
    + intros H. exists i. split; [reflexivity | exact H].
    + intros (j & Hj & Hne). injection Hj as ->. exact Hne.
  - split; [discriminate | intros (j & Hj & _); discriminate Hj].
Qed.

Lemma pinned_leaves (p : Props) (txType : string) (v : option string) :
  leaves (pinned t p txType v) =
    LText (if String.eqb txType "pin" then t "yes" else t "no") ::
    (if truthy v then [LText (t "viewTx")] else []).
Proof. unfold pinned. destruct (truthy v); reflexivity. Qed.

Lemma pinned_props (p : Props) (txType : string) (v : option string) :
  props_of (pinned t p txType v) =
    if truthy v
    then [("Button", "onClick",
           history_push ("/transactions/" +:+ default "" v) (message p) (open p))]
    else [].
Proof. unfold pinned. destruct (truthy v); reflexivity. Qed.

(** C6, as stated, fails when the panel holds an earlier id.  Nothing resets
    [txId]: in a panel that resolved "tx1" for one message, a pinned message
    whose batch answers non-2xx renders "yes" together with the navigation
    action to "tx1". *)
Lemma pinned_without_batch_keeps_earlier_navigation :
  let p := Samples.someMessageProps in
  let s := {| loading := false; txId := Some "tx1" |} in
  let s' := Observe.batchSettles p s (Response false None) in
  tx_type (tx (header (message p))) = "pin" /\
  leaves (pinned (fun k => k) p (tx_type (tx (header (message p)))) (txId s'))
    = [LText "yes"; LText "viewTx"] /\
  props_of (render (fun k => k) (fun d => d) p s') =
    [("DisplaySlide", "onClose", onClose);
     ("Button", "onClick", history_push "/transactions/tx1" (message p) (open p))].
Proof. split_and!; reflexivity. Qed.

(** C6, amended.  The indicator reads the localized "yes" when the
    transaction type is the string "pin" and the localized "no" otherwise.
    The button that pushes the route [/transactions/<id>] with the message
    and the open flag is rendered when the [txId] cell holds an id (a
    non-empty string) and nothing is rendered in its place when it does not.
    The rendered panel embeds exactly this for [header.tx.type] and the
    [txId] cell.  The cell is written by a resolved batch only and never
    reset: once the batch request of a pinned message has settled without
    data, the panel shows "yes", with no navigation action when no id was
    held before (as after mounting) and with the action to the id held
    before otherwise. *)
Theorem pinned_indicator_and_navigation
  (p : Props) (s : State) (txType : string) (v : option string)
  (res : FetchResult IBatch) :
  (txType = "pin" -> leaves (pinned t p txType v) !! 0%nat = Some (LText (t "yes"))) /\
  (txType <> "pin" -> leaves (pinned t p txType v) !! 0%nat = Some (LText (t "no"))) /\
  (forall i, v = Some i -> i <> "" ->
     props_of (pinned t p txType v) =
       [("Button", "onClick",
         history_push ("/transactions/" +:+ i) (message p) (open p))]) /\
  (v = None \/ v = Some "" ->
     props_of (pinned t p txType v) = [] /\
     leaves (pinned t p txType v) =
       [LText (if String.eqb txType "pin" then t "yes" else t "no")]) /\
  (loading s = false ->
     let h := header (message p) in
     props_of (render t formatDate p s) =
       ("DisplaySlide", "onClose", onClose) ::
       props_of (pinned t p (tx_type (tx h)) (txId s)) /\
     leaves (render t formatDate p s) =
       [LText (t "messageDetail"); LText (t "id"); LText (t "topic");
        LText (topic h); LText (t "type"); LText (type h);
        LText (t "context"); LText (context h); LText (t "author");
        LText (t "createdOn"); LText (formatDate (created h));
        LText (t "pinned?")] ++
       leaves (pinned t p (tx_type (tx h)) (txId s)) ++
       [LText (t "dataHash"); LText (datahash h); LText (t "copy")]) /\
  (tx_type (tx (header (message p))) = "pin" ->
   Observe.noData res = true ->
   let s' := Observe.batchSettles p s res in
   loading s' = false /\
   txId s' = txId s /\
   leaves (pinned t p (tx_type (tx (header (message p)))) (txId s')) !! 0%nat
     = Some (LText (t "yes")) /\
   (txId s = None ->
      props_of (render t formatDate p s') = [("DisplaySlide", "onClose", onClose)] /\
      leaves (pinned t p (tx_type (tx (header (message p)))) (txId s'))
        = [LText (t "yes")]) /\
   (forall i, txId s = Some i -> i <> "" ->
      props_of (render t formatDate p s') =
        [("DisplaySlide", "onClose", onClose);
         ("Button", "onClick",
          history_push ("/transactions/" +:+ i) (message p) (open p))] /\
      leaves (pinned t p (tx_type (tx (header (message p)))) (txId s'))
        = [LText (t "yes"); LText (t "viewTx")])) /\
  txId initial = None.
Proof.
  assert (Hrender : forall s0, loading s0 = false ->
     props_of (render t formatDate p s0) =
       ("DisplaySlide", "onClose", onClose) ::
       props_of (pinned t p (tx_type (tx (header (message p)))) (txId s0))).
  { intros s0 Hl. unfold render. rewrite Hl. rewrite pinned_props.
    unfold pinned. destruct (truthy (txId s0)); reflexivity. }
  split_and!.
  - intros ->. rewrite pinned_leaves. reflexivity.
  - intros Hne. rewrite pinned_leaves.
    apply String.eqb_neq in Hne. rewrite Hne. reflexivity.
  - intros i -> Hi. rewrite pinned_props.
    assert (Ht : truthy (Some i) = true).
    { apply truthy_spec. exists i. split; [reflexivity | exact Hi]. }
    rewrite Ht. reflexivity.
  - intros Hv. rewrite pinned_props, pinned_leaves.
    destruct Hv as [-> | ->]; split; reflexivity.
  - intros Hl h. split; [exact (Hrender s Hl) | ].
    subst h. unfold render. rewrite Hl. rewrite pinned_leaves.
    unfold pinned. destruct (truthy (txId s)); reflexivity.
  - intros Hpin Hno s'.
    assert (Hs : loading s' = false /\ txId s' = txId s).
    { subst s'. unfold Observe.batchSettles.
      destruct res as [| [|] [b |]]; try discriminate Hno; split; reflexivity. }
    destruct Hs as [Hl Hid].
    split_and!.
    + exact Hl.
    + exact Hid.
    + rewrite pinned_leaves, Hpin. reflexivity.
    + intros Hnone. rewrite (Hrender s' Hl), pinned_props, pinned_leaves.
      rewrite Hid, Hnone, Hpin. split; reflexivity.
    + intros i Hi Hne.
      assert (Ht : truthy (Some i) = true).
      { apply truthy_spec. exists i. split; [reflexivity | exact Hne]. }
      rewrite (Hrender s' Hl), pinned_props, pinned_leaves.
      rewrite Hid, Hi, Hpin, Ht. split; reflexivity.
  - reflexivity.
Qed.

End MessageDetailsPinned.

(** The amended claim C6 on a freshly mounted panel of a pinned message whose
    batch answers non-2xx. *)
Lemma pinned_indicator_and_navigation_witness :
  let p := Samples.someMessageProps in
  let s' := Observe.batchSettles p MessageDetails.initial (Response false None) in
  UI.props_of (MessageDetails.render (fun k => k) (fun d => d) p s')
    = [("DisplaySlide", "onClose", MessageDetails.onClose)] /\
  UI.leaves (MessageDetails.pinned (fun k => k) p "pin" (MessageDetails.txId s'))
    = [LText "yes"].
Proof.
  intros p s'.
  destruct (pinned_indicator_and_navigation (fun k => k) (fun d => d) p
              MessageDetails.initial "pin" None (Response false None))
    as (_ & _ & _ & _ & _ & Hend & _).
  destruct (Hend eq_refl eq_refl) as (_ & _ & _ & Hfresh & _).
  apply Hfresh. reflexivity.
Defined.

(** ** Dashboard: the network members counter

    The product [Math.random() * 1000] is followed through the rounding of
    [SpecFloat]: the right shift to 53 bits, the rounding to nearest even and
    the renormalisation. *)
Section DoubleProduct.

Import SpecFloat.

Lemma digits2_pos_size (p : positive) : digits2_pos p = Pos.size p.
Proof. induction p; simpl; congruence. Qed.

Lemma digits_upper (p : positive) : Zpos p < 2 ^ Zpos (digits2_pos p).
Proof.
  rewrite digits2_pos_size.
  pose proof (Pos.size_gt p) as H.
  rewrite <- Pos2Z.inj_pow. apply Pos2Z.pos_lt_pos. exact H.
Qed.

Lemma digits_lower (p : positive) : 2 ^ (Zpos (digits2_pos p) - 1) <= Zpos p.
Proof.
  rewrite digits2_pos_size.
  pose proof (Pos.size_le p) as H.
  assert (H2 : 2 ^ Zpos (Pos.size p) <= 2 * Zpos p).
  { rewrite <- Pos2Z.inj_pow. change (2 * Zpos p) with (Zpos p~0).
    apply Pos2Z.pos_le_pos. exact H. }
  replace (Zpos (Pos.size p)) with (Z.succ (Zpos (Pos.size p) - 1)) in H2 by lia.
  rewrite Z.pow_succ_r in H2 by lia. lia.
Qed.

Lemma shr_1_m (mrs : shr_record) :
  0 <= shr_m mrs -> shr_m (shr_1 mrs) = shr_m mrs / 2.
Proof.
  destruct mrs as [m r s]. cbn [shr_m]. intros Hm.
  rewrite <- Z.div2_div.
  destruct m as [| [p | p |] | p]; try reflexivity. lia.
Qed.

Lemma iter_shr_1_m (p : positive) : forall mrs,
  0 <= shr_m mrs ->
  shr_m (iter_pos shr_1 p mrs) = shr_m mrs / 2 ^ Zpos p.
Proof.
  induction p as [p IH | p IH |]; intros mrs Hm; simpl iter_pos.
  - assert (H1 : 0 <= shr_m (shr_1 mrs)).
    { rewrite shr_1_m by exact Hm. apply Z.div_pos; lia. }
    assert (H2 : 0 <= shr_m (iter_pos shr_1 p (shr_1 mrs))).
    { rewrite IH by exact H1. apply Z.div_pos; [exact H1 | ]. apply Z.pow_pos_nonneg; lia. }
    rewrite IH by exact H2. rewrite IH by exact H1. rewrite shr_1_m by exact Hm.
    rewrite !Z.div_div by (try apply Z.pow_pos_nonneg; lia).
    f_equal. change 2 with (2 ^ 1) at 1.
    rewrite <- !Z.pow_add_r by lia. f_equal. lia.
  - assert (H2 : 0 <= shr_m (iter_pos shr_1 p mrs)).
    { rewrite IH by exact Hm. apply Z.div_pos; [exact Hm | ]. apply Z.pow_pos_nonneg; lia. }
    rewrite IH by exact H2. rewrite IH by exact Hm.
    rewrite !Z.div_div by (try apply Z.pow_pos_nonneg; lia).
    f_equal. rewrite <- Z.pow_add_r by lia. f_equal. lia.
  - rewrite shr_1_m by exact Hm. reflexivity.
Qed.

Lemma shr_m_spec (mrs : shr_record) (e n : Z) :
  0 <= shr_m mrs ->
  shr_m (fst (shr mrs e n)) = shr_m mrs / 2 ^ Z.max 0 n /\
  snd (shr mrs e n) = e + Z.max 0 n.
Proof.
  intros Hm. destruct n as [| p | p]; simpl.
  - rewrite Z.div_1_r. split; [reflexivity | lia].
  - rewrite iter_shr_1_m by exact Hm. split; reflexivity.
  - rewrite Z.div_1_r. split; [reflexivity | lia].
Qed.

Lemma round_nearest_even_bounds (m : Z) (l : location) :
  m <= round_nearest_even m l <= m + 1.
Proof.
  destruct l as [| [| |]]; simpl; try lia.
  destruct (Z.even m); lia.
Qed.

Lemma binary_round_aux_eq (prec emax : Z) (sx : bool) (mx ex : Z) (lx : location) :
  binary_round_aux prec emax sx mx ex lx =
    let r1 := shr_fexp prec emax mx ex lx in
    let r2 := shr_fexp prec emax
                (round_nearest_even (shr_m (fst r1)) (loc_of_shr_record (fst r1)))
                (snd r1) loc_Exact in
    match shr_m (fst r2) with
    | Z0 => S754_zero sx
    | Zpos m => if Z.leb (snd r2) (emax - prec) then S754_finite sx m (snd r2)
                else S754_infinity sx
    | Zneg _ => S754_nan
    end.
Proof.
  unfold binary_round_aux.
  destruct (shr_fexp prec emax mx ex lx) as [mrs1 e1]. simpl.
  destruct (shr_fexp prec emax _ e1 loc_Exact) as [mrs2 e2]. reflexivity.
Qed.

Lemma Zdigits2_nonneg_le (x k : Z) : 0 <= x -> x <= 2 ^ k -> 0 <= k -> Zdigits2 x <= k + 1.
Proof.
  intros Hx Hle Hk. destruct x as [| p | p]; simpl; try lia.
  pose proof (digits_lower p) as Hl.
  destruct (Z_le_gt_dec (Zpos (digits2_pos p)) (k + 1)) as [H | H]; [exact H | ].
  exfalso.
  assert (2 ^ (k + 1) <= 2 ^ (Zpos (digits2_pos p) - 1)) by (apply Z.pow_le_mono_r; lia).
  assert (2 ^ k < 2 ^ (k + 1)) by (apply Z.pow_lt_mono_r; lia).
  lia.
Qed.

(** The mantissa and exponent of [m * 2^e * 1000] after the first shift and
    the rounding to nearest even: still below 1000. *)
Lemma rounded_product_bound (m : positive) (e : Z) :
  bounded 53 1024 m e = true -> e <= -53 ->
  Zpos m <= 2 ^ 53 - 2 \/ e <= -54 ->
  let r1 := shr_fexp 53 1024 (Zpos (m * 8796093022208000)) (e + -43) loc_Exact in
  let m2 := round_nearest_even (shr_m (fst r1)) (loc_of_shr_record (fst r1)) in
  0 <= m2 <= 2 ^ 53 /\ -1074 <= snd r1 <= -43 /\ m2 < 1000 * 2 ^ (- snd r1).
Proof.
  intros Hb He Hcase r1 m2.
  unfold bounded, canonical_mantissa in Hb.
  apply andb_prop in Hb. destruct Hb as [Hcan _].
  apply Z.eqb_eq in Hcan. unfold fexp, emin in Hcan.
  assert (Hdm : Zpos (digits2_pos m) <= 53) by lia.
  assert (Hemin : -1074 <= e) by lia.
  assert (Hm : Zpos m < 2 ^ 53).
  { pose proof (digits_upper m).
    assert (2 ^ Zpos (digits2_pos m) <= 2 ^ 53) by (apply Z.pow_le_mono_r; lia). lia. }
  set (M := Zpos (m * 8796093022208000)) in *.
  set (E := e + -43) in *.
  set (d := Zdigits2 M).
  assert (HM : M = Zpos m * 1000 * 2 ^ 43).
  { unfold M. rewrite Pos2Z.inj_mul. change (2 ^ 43) with 8796093022208. lia. }
  assert (HMpos : 0 < M) by (unfold M; lia).
  assert (Hdlo : 2 ^ (d - 1) <= M) by (unfold d, M; apply digits_lower).
  assert (Hdhi : M < 2 ^ d) by (unfold d, M; apply digits_upper).
  assert (Hdpos : 0 < d) by (unfold d, M; simpl; lia).
  (* the exact product is below 1000 *)
  assert (HpowE : 2 ^ (- E) = 2 ^ 43 * 2 ^ (- e)).
  { unfold E. replace (- (e + -43)) with (43 + - e) by lia.
    apply Z.pow_add_r; lia. }
  assert (Hpe : 2 ^ 53 <= 2 ^ (- e)) by (apply Z.pow_le_mono_r; lia).
  assert (HMlt : M < 1000 * 2 ^ (- E)).
  { rewrite HpowE, HM. change (2 ^ 43) with 8796093022208 in *. nia. }
  assert (HdE : d + E <= 10).
  { assert (H1 : 2 ^ (d - 1) < 2 ^ (10 - E)).
    { replace (10 - E) with (10 + - E) by lia.
      rewrite Z.pow_add_r by (unfold E; lia).
      change (2 ^ 10) with 1024. lia. }
    apply Z.pow_lt_mono_r_iff in H1; unfold E in *; lia. }
  pose proof (shr_m_spec (shr_record_of_loc M loc_Exact) E
                (fexp 53 1024 (Zdigits2 M + E) - E)) as Hshr.
  simpl shr_record_of_loc in Hshr. cbn [shr_m] in Hshr.
  specialize (Hshr ltac:(lia)).
  fold d in Hshr.
  change (shr {| shr_m := M; shr_r := false; shr_s := false |} E
            (fexp 53 1024 (d + E) - E)) with r1 in Hshr.
  destruct Hshr as [Hm1 He1].
  pose proof (round_nearest_even_bounds (shr_m (fst r1)) (loc_of_shr_record (fst r1))) as Hrne.
  fold m2 in Hrne.
  unfold fexp, emin in Hm1, He1.
  change (3 - 1024 - 53) with (-1074) in *.
  set (n1 := Z.max 0 (Z.max (d + E - 53) (-1074) - E)) in *.
  assert (Hn1 : 0 <= n1) by lia.
  assert (Hpn1 : 0 < 2 ^ n1) by (apply Z.pow_pos_nonneg; lia).
  assert (Hm1nn : 0 <= shr_m (fst r1)).
  { rewrite Hm1. apply Z.div_pos; lia. }
  assert (Hm1lt : shr_m (fst r1) < 2 ^ 53).
  { rewrite Hm1. apply Z.div_lt_upper_bound; [lia | ].
    rewrite <- Z.pow_add_r by lia.
    assert (2 ^ d <= 2 ^ (n1 + 53)) by (apply Z.pow_le_mono_r; lia). lia. }
  assert (He1lo : -1074 <= snd r1) by (unfold E in *; lia).
  assert (He1hi : snd r1 <= -43) by (unfold E in *; lia).
  split; [lia | ]. split; [lia | ].
  destruct (Z_le_gt_dec (snd r1) (-44)) as [Hlow | Hhigh].
  - assert (2 ^ 44 <= 2 ^ (- snd r1)) by (apply Z.pow_le_mono_r; lia).
    change (2 ^ 44) with 17592186044416 in *.
    change (2 ^ 53) with 9007199254740992 in *. lia.
  - assert (He1eq : snd r1 = -43) by lia.
    rewrite He1eq. change (- -43) with 43.
    (* the exponent -43 is reached only for e = -53 *)
    assert (Hn1eq : n1 = - e) by (unfold E in *; lia).
    assert (Hd : d = 53 - e) by (unfold E in *; lia).
    assert (Hee : e = -53).
    { destruct (Z_le_gt_dec e (-54)) as [Hsmall | Hbig]; [ | lia].
      exfalso.
      assert (H106 : 2 ^ 106 <= 2 ^ (d - 1)) by (apply Z.pow_le_mono_r; lia).
      change (2 ^ 53) with 9007199254740992 in *.
      change (2 ^ 43) with 8796093022208 in *.
      change (2 ^ 106) with 81129638414606681695789005144064 in *.
      nia. }
    destruct Hcase as [Hmle | Hbad]; [ | lia].
    assert (Hm1c : shr_m (fst r1) < 1000 * 2 ^ 43 - 1).
    { rewrite Hm1, Hn1eq, Hee. change (- -53) with 53.
      apply Z.div_lt_upper_bound; [lia | ].
      rewrite HM.
      change (2 ^ 53) with 9007199254740992 in *.
      change (2 ^ 43) with 8796093022208 in *. nia. }
    lia.
Qed.

Lemma floor_product_general (m : positive) (e : Z) :
  bounded 53 1024 m e = true -> e <= -53 ->
  Zpos m <= 2 ^ 53 - 2 \/ e <= -54 ->
  exists n,
    JSMath.floor (binary_round_aux 53 1024 false (Zpos (m * 8796093022208000)) (e + -43) loc_Exact) = Num n /\
    0 <= n <= 999.
Proof.
  intros Hb He Hcase.
  pose proof (rounded_product_bound m e Hb He Hcase) as Hr.
  cbv zeta in Hr. rewrite binary_round_aux_eq. cbv zeta.
  set (r1 := shr_fexp 53 1024 (Zpos (m * 8796093022208000)) (e + -43) loc_Exact) in *.
  set (m2 := round_nearest_even (shr_m (fst r1)) (loc_of_shr_record (fst r1))) in *.
  destruct Hr as ((Hm2nn & Hm2le) & (He1lo & He1hi) & Hm2lt).
  pose proof (shr_m_spec (shr_record_of_loc m2 loc_Exact) (snd r1)
                (fexp 53 1024 (Zdigits2 m2 + snd r1) - snd r1)) as Hshr.
  simpl shr_record_of_loc in Hshr. cbn [shr_m] in Hshr.
  specialize (Hshr Hm2nn).
  change (shr {| shr_m := m2; shr_r := false; shr_s := false |} (snd r1)
            (fexp 53 1024 (Zdigits2 m2 + snd r1) - snd r1))
    with (shr_fexp 53 1024 m2 (snd r1) loc_Exact) in Hshr.
  set (r2 := shr_fexp 53 1024 m2 (snd r1) loc_Exact) in *.
  destruct Hshr as [Hm3 He2].
  pose proof (Zdigits2_nonneg_le m2 53 Hm2nn Hm2le ltac:(lia)) as Hdig.
  assert (Hdig0 : 0 <= Zdigits2 m2) by (destruct m2; simpl; lia).
  unfold fexp, emin in Hm3, He2.
  change (3 - 1024 - 53) with (-1074) in *.
  set (k := Z.max 0 (Z.max (Zdigits2 m2 + snd r1 - 53) (-1074) - snd r1)) in *.
  assert (Hk : k = 0 \/ k = 1) by lia.
  assert (He2hi : snd r2 <= -42) by lia.
  assert (Hm3nn : 0 <= shr_m (fst r2)).
  { rewrite Hm3. apply Z.div_pos; [lia | apply Z.pow_pos_nonneg; lia]. }
  assert (Hm3lt : shr_m (fst r2) < 1000 * 2 ^ (- snd r2)).
  { rewrite Hm3, He2. destruct Hk as [Hk | Hk]; rewrite Hk.
    - rewrite Z.add_0_r. change (2 ^ 0) with 1. rewrite Z.div_1_r. exact Hm2lt.
    - apply Z.div_lt_upper_bound; [reflexivity | ].
      replace (- snd r1) with (1 + - (snd r1 + 1)) in Hm2lt by lia.
      rewrite Z.pow_add_r in Hm2lt by lia.
      change (2 ^ 1) with 2 in *. lia. }
  destruct (shr_m (fst r2)) as [| q | q] eqn:Hq.
  - exists 0. split; [reflexivity | lia].
  - replace (snd r2 <=? 1024 - 53) with true by (symmetry; apply Z.leb_le; lia).
    cbn [JSMath.floor cond_Zopp].
    exists (Z.shiftl (Zpos q) (snd r2)). split; [reflexivity | ].
    rewrite Z.shiftl_div_pow2 by lia.
    assert (Hp : 0 < 2 ^ (- snd r2)) by (apply Z.pow_pos_nonneg; lia).
    split; [apply Z.div_pos; lia | ].
    assert (Zpos q / 2 ^ (- snd r2) < 1000)
      by (apply Z.div_lt_upper_bound; lia).
    lia.
  - lia.
Qed.

Lemma floor_product (m : positive) (e : Z) :
  bounded 53 1024 m e = true -> e <= -53 ->
  exists n,
    JSMath.floor (binary_round_aux 53 1024 false (Zpos (m * 8796093022208000)) (e + -43) loc_Exact) = Num n /\
    0 <= n <= 999.
Proof.
  intros Hb He.
  destruct (Z_le_gt_dec (Zpos m) (2 ^ 53 - 2)) as [Hmle | Hmgt];
    [apply floor_product_general; auto | ].
  destruct (Z_le_gt_dec e (-54)) as [Hsmall | Hbig];
    [apply floor_product_general; auto | ].
  (* the largest double below 1 *)
  assert (He53 : e = -53) by lia.
  assert (Hm53 : m = 9007199254740991%positive).
  { unfold bounded, canonical_mantissa in Hb.
    apply andb_prop in Hb. destruct Hb as [Hcan _].
    apply Z.eqb_eq in Hcan. unfold fexp, emin in Hcan.
    pose proof (digits_upper m).
    assert (2 ^ Zpos (digits2_pos m) <= 2 ^ 53) by (apply Z.pow_le_mono_r; lia).
    change (2 ^ 53) with 9007199254740992 in *. lia. }
  subst e m. exists 999. split; [vm_compute; reflexivity | lia].
Qed.

Lemma is_random_cases (r : JSMath.double) :
  JSMath.is_random r = true ->
  (exists s, r = S754_zero s) \/
  (exists m e, r = S754_finite false m e /\ bounded 53 1024 m e = true /\ e <= -53).
Proof.
  unfold JSMath.is_random, JSMath.is_double. intros H.
  apply andb_prop in H. destruct H as [H Hlt].
  apply andb_prop in H. destruct H as [Hv Hle].
  destruct r as [s | s | | s m e].
  - left. exists s. reflexivity.
  - destruct s; discriminate.
  - discriminate.
  - right. destruct s; [discriminate | ].
    exists m, e. split; [reflexivity | ]. split; [exact Hv | ].
    simpl in Hv. unfold bounded, canonical_mantissa in Hv.
    apply andb_prop in Hv. destruct Hv as [Hcan _].
    apply Z.eqb_eq in Hcan. unfold fexp, emin in Hcan.
    unfold SFltb, JSMath.one in Hlt. cbn [SFcompare] in Hlt.
    destruct (Z.compare_spec e (-52)) as [Heq | Hlt52 | Hgt52];
      [ | lia | discriminate].
    exfalso. subst e.
    assert (Hd : Zpos (digits2_pos m) = 53) by lia.
    pose proof (digits_lower m) as Hlow. rewrite Hd in Hlow.
    change (2 ^ (53 - 1)) with 4503599627370496 in Hlow.
    rewrite Pos.compare_cont_spec in Hlt.
    destruct (Pos.compare_spec m 4503599627370496%positive) as [Hc | Hc | Hc];
      simpl in Hlt; try discriminate Hlt.
    clear - Hc Hlow.
    apply Pos2Z.pos_lt_pos in Hc. lia.
Qed.

(** [Math.floor(Math.random() * 1000)] is an integer from 0 to 999. *)
Lemma networkMembers_range (r : JSMath.double) :
  JSMath.is_random r = true ->
  exists n, Dashboard.networkMembers r = Num n /\ 0 <= n <= 999.
Proof.
  intros Hr. destruct (is_random_cases r Hr) as [[s ->] | (m & e & -> & Hb & He)].
  - exists 0. split; [reflexivity | lia].
  - unfold Dashboard.networkMembers, JSMath.times, JSMath.thousand.
    cbn [SFmul xorb]. apply floor_product; assumption.
Qed.

End DoubleProduct.

(** ** Safe integers in binary64

    The sum [currentPage + 1], the product by [rowsPerPage] and the two
    comparisons of the page guard, followed through [SpecFloat]: on safe
    integers whose sum and product are safe, nothing is rounded. *)
Section SafeIntegers.

Import SpecFloat Binary64 AccountDetails.


Lemma digits_unique (p : positive) (d : Z) :
  2 ^ (d - 1) <= Zpos p < 2 ^ d -> Zpos (digits2_pos p) = d.
Proof.
  intros [Hlo Hhi].
  pose proof (digits_lower p) as Hl. pose proof (digits_upper p) as Hu.
  assert (Hd0 : 0 < d).
  { destruct (Z_lt_le_dec 0 d) as [H | H]; [exact H | exfalso].
    destruct (Z.eq_dec d 0) as [-> | Hne].
    - change (2 ^ 0) with 1 in Hhi. lia.
    - rewrite Z.pow_neg_r in Hhi by lia. lia. }
  destruct (Z.lt_trichotomy (Zpos (digits2_pos p)) d) as [H | [H | H]].
  - exfalso.
    assert (2 ^ Zpos (digits2_pos p) <= 2 ^ (d - 1)) by (apply Z.pow_le_mono_r; lia).
    lia.
  - exact H.
  - exfalso.
    assert (2 ^ d <= 2 ^ (Zpos (digits2_pos p) - 1)) by (apply Z.pow_le_mono_r; lia).
    lia.
Qed.

Lemma shr_1_exact (m : Z) :
  0 <= m -> (2 | m) ->
  shr_1 {| shr_m := m; shr_r := false; shr_s := false |} =
    {| shr_m := m / 2; shr_r := false; shr_s := false |}.
Proof.
  intros Hm [k Hk]. subst m.
  rewrite Z.div_mul by lia.
  destruct k as [| q | q]; try reflexivity.
  - simpl. rewrite Pos.mul_comm. reflexivity.
  - exfalso. lia.
Qed.

Lemma iter_shr_1_exact (p : positive) : forall m,
  0 <= m -> (2 ^ Zpos p | m) ->
  iter_pos shr_1 p {| shr_m := m; shr_r := false; shr_s := false |} =
    {| shr_m := m / 2 ^ Zpos p; shr_r := false; shr_s := false |}.
Proof.
  assert (Hdivides : forall a b m, 0 <= a -> 0 <= b -> (2 ^ (a + b) | m) ->
            (2 ^ a | m) /\ (2 ^ b | m / 2 ^ a) /\ 0 < 2 ^ a).
  { intros a b m Ha Hb [k Hk]. subst m.
    assert (Hpa : 0 < 2 ^ a) by (apply Z.pow_pos_nonneg; lia).
    rewrite Z.pow_add_r by lia.
    split_and!.
    - exists (k * 2 ^ b). lia.
    - replace (k * (2 ^ a * 2 ^ b)) with (k * 2 ^ b * 2 ^ a) by lia.
      rewrite Z.div_mul by lia. exists k. reflexivity.
    - exact Hpa. }
  induction p as [p IH | p IH |]; intros m Hm Hdiv; cbn [iter_pos].
  - replace (Zpos p~1) with (1 + (Zpos p + Zpos p)) in * by lia.
    destruct (Hdivides 1 (Zpos p + Zpos p) m ltac:(lia) ltac:(lia) Hdiv)
      as (H1 & H2 & _).
    change (2 ^ 1) with 2 in *.
    rewrite shr_1_exact by assumption.
    assert (Hm2 : 0 <= m / 2) by (apply Z.div_pos; lia).
    destruct (Hdivides (Zpos p) (Zpos p) (m / 2) ltac:(lia) ltac:(lia) H2)
      as (H3 & H4 & Hp).
    rewrite IH by assumption.
    rewrite IH by (try apply Z.div_pos; lia || assumption).
    rewrite !Z.div_div by lia.
    do 2 f_equal. rewrite !Z.pow_add_r by lia. change (2 ^ 1) with 2. lia.
  - replace (Zpos p~0) with (Zpos p + Zpos p) in * by lia.
    destruct (Hdivides (Zpos p) (Zpos p) m ltac:(lia) ltac:(lia) Hdiv)
      as (H3 & H4 & Hp).
    rewrite IH by assumption.
    rewrite IH by (try apply Z.div_pos; lia || assumption).
    rewrite !Z.div_div by lia.
    do 2 f_equal. rewrite !Z.pow_add_r by lia. lia.
  - change (2 ^ 1) with 2 in *. apply shr_1_exact; assumption.
Qed.

(** Rounding a mantissa [Q * 2^n] at exponent [e - n], with [Q] of 53 bits:
    nothing is lost. *)
Lemma binary_round_aux_exact (s : bool) (Q : positive) (e n : Z) (M : positive) :
  2 ^ 52 <= Zpos Q < 2 ^ 53 -> 0 <= n -> -1074 <= e <= 971 ->
  Zpos M = Zpos Q * 2 ^ n ->
  binary_round_aux 53 1024 s (Zpos M) (e - n) loc_Exact = S754_finite s Q e.
Proof.
  intros HQ Hn He HM.
  assert (Hpn : 0 < 2 ^ n) by (apply Z.pow_pos_nonneg; lia).
  assert (HdQ : Zpos (digits2_pos Q) = 53) by (apply digits_unique; exact HQ).
  assert (HdM : Zpos (digits2_pos M) = 53 + n).
  { apply digits_unique. rewrite HM.
    replace (53 + n - 1) with (52 + n) by lia.
    rewrite !Z.pow_add_r by lia. nia. }
  unfold binary_round_aux, shr_fexp.
  cbn [Zdigits2 shr_record_of_loc]. rewrite HdM.
  unfold fexp, emin.
  replace (Z.max (53 + n + (e - n) - 53) (3 - 1024 - 53) - (e - n)) with n by lia.
  assert (Hshr : shr {| shr_m := Zpos M; shr_r := false; shr_s := false |} (e - n) n
                 = ({| shr_m := Zpos Q; shr_r := false; shr_s := false |}, e)).
  { destruct n as [| p | p]; [ | | lia].
    - simpl. f_equal; [ | lia]. f_equal. rewrite HM. change (2 ^ 0) with 1. lia.
    - cbn [shr]. f_equal; [ | lia].
      rewrite iter_shr_1_exact; [ | lia | exists (Zpos Q); lia].
      f_equal. rewrite HM. apply Z.div_mul. lia. }
  rewrite Hshr. cbn [shr_m loc_of_shr_record round_nearest_even Zdigits2 shr_record_of_loc].
  rewrite HdQ.
  replace (Z.max (53 + e - 53) (3 - 1024 - 53) - e) with 0 by lia.
  cbn [shr shr_m].
  replace (e <=? 1024 - 53) with true by (symmetry; apply Z.leb_le; lia).
  reflexivity.
Qed.

Lemma iter_xO (m k : positive) :
  Zpos (Pos.iter xO m k) = Zpos m * 2 ^ Zpos k.
Proof.
  induction k as [| k IH] using Pos.peano_ind.
  - simpl. lia.
  - rewrite Pos.iter_succ, Pos2Z.inj_xO, IH, Pos2Z.inj_succ, Z.pow_succ_r by lia. lia.
Qed.

Lemma Zdigits2_bounds (z : Z) :
  z <> 0 ->
  0 < Zdigits2 z /\ 2 ^ (Zdigits2 z - 1) <= Z.abs z < 2 ^ Zdigits2 z.
Proof.
  intros Hz. destruct z as [| p | p]; [congruence | | ]; cbn [Zdigits2 Z.abs].
  - split; [lia | split; [apply digits_lower | apply digits_upper]].
  - split; [lia | split; [apply digits_lower | apply digits_upper]].
Qed.

Lemma canon_mantissa (z : Z) :
  z <> 0 -> isSafeInteger z ->
  let d := Zdigits2 z in
  let Q := Z.abs z * 2 ^ (53 - d) in
  1 <= d <= 53 /\ 2 ^ 52 <= Q < 2 ^ 53 /\ Zpos (Z.to_pos Q) = Q.
Proof.
  intros Hz Hs d Q.
  destruct (Zdigits2_bounds z Hz) as (Hd0 & Hlo & Hhi). fold d in Hd0, Hlo, Hhi.
  assert (Hd53 : d <= 53).
  { destruct (Z_le_gt_dec d 53) as [H | H]; [exact H | exfalso].
    assert (2 ^ 53 <= 2 ^ (d - 1)) by (apply Z.pow_le_mono_r; lia).
    unfold isSafeInteger, MAX_SAFE_INTEGER in Hs.
    change (2 ^ 53) with 9007199254740992 in *. lia. }
  assert (Hp : 0 < 2 ^ (53 - d)) by (apply Z.pow_pos_nonneg; lia).
  assert (H52 : 2 ^ 52 = 2 ^ (d - 1) * 2 ^ (53 - d)).
  { rewrite <- Z.pow_add_r by lia. f_equal. lia. }
  assert (H53 : 2 ^ 53 = 2 ^ d * 2 ^ (53 - d)).
  { rewrite <- Z.pow_add_r by lia. f_equal. lia. }
  assert (HQ : 2 ^ 52 <= Q < 2 ^ 53).
  { unfold Q. rewrite H52, H53. nia. }
  assert (H0 : 0 < 2 ^ 52) by (apply Z.pow_pos_nonneg; lia).
  split_and!; lia.
Qed.

(** Rounding [m * 2^E] when it equals [Q * 2^e] with [Q] of 53 bits. *)
Lemma binary_round_exact (s : bool) (m Q : positive) (E e : Z) :
  2 ^ 52 <= Zpos Q < 2 ^ 53 -> -1074 <= e <= 971 ->
  (e <= E /\ Zpos Q = Zpos m * 2 ^ (E - e)) \/
  (E <= e /\ Zpos m = Zpos Q * 2 ^ (e - E)) ->
  binary_round 53 1024 s m E = S754_finite s Q e.
Proof.
  intros HQ He Hrel.
  assert (Hd : Zpos (digits2_pos m) = 53 + e - E).
  { apply digits_unique.
    destruct Hrel as [[Hle Hq] | [Hle Hm]].
    - assert (Hp : 0 < 2 ^ (E - e)) by (apply Z.pow_pos_nonneg; lia).
      assert (H52 : 2 ^ 52 = 2 ^ (53 + e - E - 1) * 2 ^ (E - e)).
      { destruct (Z_le_gt_dec 0 (53 + e - E - 1)) as [H | H].
        - rewrite <- Z.pow_add_r by lia. f_equal. lia.
        - exfalso.
          assert (2 ^ 53 <= 2 ^ (E - e)) by (apply Z.pow_le_mono_r; lia).
          nia. }
      assert (H53 : 2 ^ 53 = 2 ^ (53 + e - E) * 2 ^ (E - e)).
      { destruct (Z_le_gt_dec 0 (53 + e - E)) as [H | H].
        - rewrite <- Z.pow_add_r by lia. f_equal. lia.
        - exfalso.
          assert (2 ^ 53 <= 2 ^ (E - e)) by (apply Z.pow_le_mono_r; lia).
          nia. }
      rewrite H52, H53, Hq in HQ. nia.
    - rewrite Hm.
      replace (53 + e - E - 1) with (52 + (e - E)) by lia.
      replace (53 + e - E) with (53 + (e - E)) by lia.
      rewrite !Z.pow_add_r by lia.
      assert (Hp : 0 < 2 ^ (e - E)) by (apply Z.pow_pos_nonneg; lia). nia. }
  unfold binary_round. rewrite Hd. unfold fexp, emin.
  replace (Z.max (53 + e - E + E - 53) (3 - 1024 - 53)) with e by lia.
  unfold shl_align.
  destruct (e - E) as [| k | k] eqn:Hk.
  - replace e with (e - 0) at 1 by lia.
    assert (HE : E = e) by lia. subst E.
    replace (e - 0) with e by lia. replace e with (e - 0) at 1 by lia.
    apply binary_round_aux_exact; try assumption; try lia.
    destruct Hrel as [[_ Hq] | [_ Hm]].
    + rewrite Z.sub_diag in Hq. change (2 ^ 0) with 1 in *. lia.
    + change (2 ^ 0) with 1 in *. lia.
  - replace E with (e - Zpos k) by lia.
    apply binary_round_aux_exact; try assumption; try lia.
    all: destruct Hrel as [[Hle _] | [_ Hm]]; [lia | ].
    all: rewrite Hm; f_equal; f_equal; lia.
  - replace e with (e - 0) at 1 by lia.
    apply binary_round_aux_exact; try assumption; try lia.
    rewrite iter_xO. change (2 ^ 0) with 1.
    destruct Hrel as [[_ Hq] | [Hle _]]; [ | lia].
    rewrite Hq. replace (E - e) with (Zpos k) by lia. lia.
Qed.

Lemma canon_round (z : Z) (s : bool) (m : positive) (E : Z) :
  z <> 0 -> isSafeInteger z ->
  s = (z <? 0) ->
  (Zdigits2 z - 53 <= E /\
   Z.abs z * 2 ^ (53 - Zdigits2 z) = Zpos m * 2 ^ (E - (Zdigits2 z - 53))) \/
  (E <= Zdigits2 z - 53 /\
   Zpos m = Z.abs z * 2 ^ (53 - Zdigits2 z) * 2 ^ (Zdigits2 z - 53 - E)) ->
  binary_round 53 1024 s m E = canon z.
Proof.
  intros Hz Hs -> Hrel.
  destruct (canon_mantissa z Hz Hs) as (Hd & HQ & Hid).
  unfold canon.
  apply binary_round_exact.
  - rewrite Hid. exact HQ.
  - lia.
  - rewrite Hid. exact Hrel.
Qed.

Lemma ofInteger_canon (z : Z) :
  z <> 0 -> isSafeInteger z -> JSMath.ofInteger z = canon z.
Proof.
  intros Hz Hs.
  destruct (canon_mantissa z Hz Hs) as (Hd & HQ & Hid).
  unfold JSMath.ofInteger, binary_normalize.
  destruct z as [| p | p]; [congruence | | ].
  - apply canon_round; [assumption | assumption | reflexivity | ].
    left. split; [lia | ].
    cbn [Z.abs]. f_equal. f_equal. lia.
  - apply canon_round; [assumption | assumption | reflexivity | ].
    left. split; [lia | ].
    cbn [Z.abs]. f_equal. f_equal. lia.
Qed.

Lemma ofInteger_represents (z : Z) :
  isSafeInteger z -> represents (JSMath.ofInteger z) z.
Proof.
  intros Hs. destruct (Z.eq_dec z 0) as [-> | Hz].
  - left. split; [reflexivity | exists false; reflexivity].
  - right. split; [exact Hz | apply ofInteger_canon; assumption].
Qed.

Lemma Zdigits2_mul_lower (a b : Z) :
  a <> 0 -> b <> 0 -> Zdigits2 a + Zdigits2 b - 1 <= Zdigits2 (a * b).
Proof.
  intros Ha Hb.
  assert (Hab : a * b <> 0) by lia.
  destruct (Zdigits2_bounds a Ha) as (Hda & Hal & _).
  destruct (Zdigits2_bounds b Hb) as (Hdb & Hbl & _).
  destruct (Zdigits2_bounds (a * b) Hab) as (Hdab & _ & Habh).
  rewrite Z.abs_mul in Habh.
  assert (Hp : 2 ^ (Zdigits2 a + Zdigits2 b - 2) <= Z.abs a * Z.abs b).
  { replace (Zdigits2 a + Zdigits2 b - 2)
      with ((Zdigits2 a - 1) + (Zdigits2 b - 1)) by lia.
    rewrite Z.pow_add_r by lia.
    assert (0 < 2 ^ (Zdigits2 a - 1)) by (apply Z.pow_pos_nonneg; lia).
    assert (0 < 2 ^ (Zdigits2 b - 1)) by (apply Z.pow_pos_nonneg; lia).
    nia. }
  assert (Hlt : 2 ^ (Zdigits2 a + Zdigits2 b - 2) < 2 ^ Zdigits2 (a * b)) by lia.
  apply Z.pow_lt_mono_r_iff in Hlt; lia.
Qed.

(** The binary64 product of two safe integers whose product is safe is that
    product (a zero of either sign when it is 0). *)
Lemma times_exact (a b : Z) (x y : spec_float) :
  isSafeInteger a -> isSafeInteger b -> isSafeInteger (a * b) ->
  represents x a -> represents y b ->
  represents (SFmul 53 1024 x y) (a * b).
Proof.
  intros Hsa Hsb Hsab [[-> [sx ->]] | [Ha ->]] [[-> [sy ->]] | [Hb ->]].
  - left. split; [reflexivity | eexists; reflexivity].
  - left. split; [lia | eexists; reflexivity].
  - left. split; [lia | eexists; reflexivity].
  - right. assert (Hab : a * b <> 0) by lia. split; [exact Hab | ].
    destruct (canon_mantissa a Ha Hsa) as (Hda & HQa & Hida).
    destruct (canon_mantissa b Hb Hsb) as (Hdb & HQb & Hidb).
    destruct (canon_mantissa (a * b) Hab Hsab) as (Hdab & HQab & Hidab).
    pose proof (Zdigits2_mul_lower a b Ha Hb) as Hlow.
    unfold canon at 1 2. cbn [SFmul].
    set (da := Zdigits2 a) in *. set (db := Zdigits2 b) in *.
    set (dab := Zdigits2 (a * b)) in *.
    replace (da - 53 + (db - 53)) with ((dab - 53) - (53 + dab - da - db)) by lia.
    assert (Hsign : xorb (a <? 0) (b <? 0) = (a * b <? 0)).
    { destruct (Z.ltb_spec a 0), (Z.ltb_spec b 0), (Z.ltb_spec (a * b) 0);
        try reflexivity; nia. }
    rewrite Hsign. unfold canon. fold dab.
    apply binary_round_aux_exact.
    + rewrite Hidab. exact HQab.
    + lia.
    + lia.
    + rewrite Pos2Z.inj_mul, Hida, Hidb, Hidab. rewrite Z.abs_mul.
      replace (53 - da) with ((53 - dab) + (53 + dab - da - db) - (53 - db)) by lia.
      assert (H1 : 2 ^ (53 - dab + (53 + dab - da - db))
                   = 2 ^ (53 - da) * 2 ^ (53 - db)).
      { rewrite <- Z.pow_add_r by lia. f_equal. lia. }
      replace (53 - dab + (53 + dab - da - db) - (53 - db)) with (53 - da) by lia.
      rewrite Z.pow_add_r in H1 by lia. nia.
Qed.

(** The binary64 sum of a safe integer and 1, when safe, is that sum. *)
Lemma plus_one_exact (a : Z) (x : spec_float) :
  isSafeInteger a -> isSafeInteger (a + 1) ->
  represents x a ->
  represents (SFadd 53 1024 x JSMath.one) (a + 1).
Proof.
  intros Hsa Hsa1 [[-> [sx ->]] | [Ha ->]].
  - right. split; [lia | ]. reflexivity.
  - destruct (canon_mantissa a Ha Hsa) as (Hda & HQa & Hida).
    unfold canon at 1, JSMath.one. cbn [SFadd].
    set (da := Zdigits2 a) in *.
    set (Qa := Z.to_pos (Z.abs a * 2 ^ (53 - da))) in *.
    replace (Z.min (da - 53) (-52)) with (-52) by lia.
    assert (Hone : fst (shl_align 4503599627370496 (-52) (-52)) = 4503599627370496%positive)
      by reflexivity.
    rewrite Hone.
    assert (Hax : Zpos (fst (shl_align Qa (da - 53) (-52))) = Z.abs a * 2 ^ 52).
    { unfold shl_align.
      destruct (-52 - (da - 53)) as [| k | k] eqn:Hk; cbn [fst].
      - rewrite Hida. f_equal. f_equal. lia.
      - lia.
      - rewrite iter_xO, Hida.
        replace 52 with ((53 - da) + Zpos k) by lia.
        rewrite Z.pow_add_r by lia. lia. }
    rewrite Hax.
    assert (Hsum : cond_Zopp (a <? 0) (Z.abs a * 2 ^ 52) + cond_Zopp false 4503599627370496
                   = (a + 1) * 2 ^ 52).
    { change (2 ^ 52) with 4503599627370496. unfold cond_Zopp.
      destruct (Z.ltb_spec a 0); lia. }
    rewrite Hsum. clear Hsum Hax Hone.
    destruct (Z.eq_dec (a + 1) 0) as [H0 | H1].
    + left. split; [exact H0 | ]. rewrite H0. exists false. reflexivity.
    + right. split; [exact H1 | ].
      destruct (canon_mantissa (a + 1) H1 Hsa1) as (Hd1 & HQ1 & Hid1).
      unfold binary_normalize.
      assert (Hp52 : 0 < 2 ^ 52) by (apply Z.pow_pos_nonneg; lia).
      destruct ((a + 1) * 2 ^ 52) as [| m | m] eqn:Hm; [lia | | ].
      * apply canon_round; [exact H1 | exact Hsa1 | | ].
        { symmetry. apply Z.ltb_ge. lia. }
        right. split; [lia | ].
        replace (Z.abs (a + 1)) with (a + 1) by lia.
        rewrite <- Z.mul_assoc, <- Z.pow_add_r by lia.
        replace (53 - Zdigits2 (a + 1) + (Zdigits2 (a + 1) - 53 - -52)) with 52 by lia.
        lia.
      * apply canon_round; [exact H1 | exact Hsa1 | | ].
        { symmetry. apply Z.ltb_lt. lia. }
        right. split; [lia | ].
        replace (Z.abs (a + 1)) with (- (a + 1)) by lia.
        rewrite <- Z.mul_assoc, <- Z.pow_add_r by lia.
        replace (53 - Zdigits2 (a + 1) + (Zdigits2 (a + 1) - 53 - -52)) with 52 by lia.
        lia.
Qed.

Lemma abs_lt_of_digits (a b : Z) :
  a <> 0 -> b <> 0 -> Zdigits2 a < Zdigits2 b -> Z.abs a < Z.abs b.
Proof.
  intros Ha Hb Hd.
  destruct (Zdigits2_bounds a Ha) as (_ & _ & Hah).
  destruct (Zdigits2_bounds b Hb) as (_ & Hbl & _).
  assert (2 ^ Zdigits2 a <= 2 ^ (Zdigits2 b - 1)) by (apply Z.pow_le_mono_r; lia).
  lia.
Qed.

Lemma mantissa_compare (a b : Z) :
  a <> 0 -> b <> 0 -> isSafeInteger a -> isSafeInteger b ->
  Zdigits2 a = Zdigits2 b ->
  Pos.compare_cont Eq (Z.to_pos (Z.abs a * 2 ^ (53 - Zdigits2 a)))
                      (Z.to_pos (Z.abs b * 2 ^ (53 - Zdigits2 b)))
    = (Z.abs a ?= Z.abs b).
Proof.
  intros Ha Hb Hsa Hsb Hd.
  destruct (canon_mantissa a Ha Hsa) as (Hda & HQa & Hida).
  destruct (canon_mantissa b Hb Hsb) as (Hdb & HQb & Hidb).
  assert (Hsw : forall c, Pos.switch_Eq Eq c = c) by (intros []; reflexivity).
  rewrite Pos.compare_cont_spec, Hsw.
  rewrite <- Hd in *.
  assert (Hp : 0 < 2 ^ (53 - Zdigits2 a)) by (apply Z.pow_pos_nonneg; lia).
  rewrite Pos2Z.inj_compare, Hida, Hidb.
  destruct (Z.compare_spec (Z.abs a) (Z.abs b)) as [H | H | H].
  - rewrite H. apply Z.compare_refl.
  - apply Z.compare_lt_iff. nia.
  - apply Z.compare_gt_iff. nia.
Qed.

(** The binary64 comparison of two safe integers is their comparison. *)
Lemma compare_exact (a b : Z) (x y : spec_float) :
  isSafeInteger a -> isSafeInteger b ->
  represents x a -> represents y b ->
  SFcompare x y = Some (a ?= b).
Proof.
  intros Hsa Hsb [[-> [sx ->]] | [Ha ->]] [[-> [sy ->]] | [Hb ->]].
  - reflexivity.
  - unfold canon. cbn [SFcompare]. f_equal.
    destruct (Z.ltb_spec b 0); symmetry;
      [apply Z.compare_gt_iff | apply Z.compare_lt_iff]; lia.
  - unfold canon. cbn [SFcompare]. f_equal.
    destruct (Z.ltb_spec a 0); symmetry;
      [apply Z.compare_lt_iff | apply Z.compare_gt_iff]; lia.
  - unfold canon. cbn [SFcompare]. f_equal.
    pose proof (mantissa_compare a b Ha Hb Hsa Hsb) as Hmant.
    pose proof (abs_lt_of_digits a b Ha Hb) as Hab.
    pose proof (abs_lt_of_digits b a Hb Ha) as Hba.
    destruct (Z.ltb_spec a 0) as [Han | Hap], (Z.ltb_spec b 0) as [Hbn | Hbp].
    + destruct (Z.compare_spec (Zdigits2 a - 53) (Zdigits2 b - 53)) as [He | He | He].
      * rewrite Hmant by lia. symmetry.
        destruct (Z.compare_spec (Z.abs a) (Z.abs b)) as [H | H | H]; cbn [CompOpp];
          [apply Z.compare_eq_iff | apply Z.compare_gt_iff | apply Z.compare_lt_iff]; lia.
      * symmetry. apply Z.compare_gt_iff. specialize (Hab ltac:(lia)). lia.
      * symmetry. apply Z.compare_lt_iff. specialize (Hba ltac:(lia)). lia.
    + symmetry. apply Z.compare_lt_iff. lia.
    + symmetry. apply Z.compare_gt_iff. lia.
    + destruct (Z.compare_spec (Zdigits2 a - 53) (Zdigits2 b - 53)) as [He | He | He].
      * rewrite Hmant by lia. symmetry.
        destruct (Z.compare_spec (Z.abs a) (Z.abs b)) as [H | H | H];
          [apply Z.compare_eq_iff | apply Z.compare_lt_iff | apply Z.compare_gt_iff]; lia.
      * symmetry. apply Z.compare_lt_iff. specialize (Hab ltac:(lia)). lia.
      * symmetry. apply Z.compare_gt_iff. specialize (Hba ltac:(lia)). lia.
Qed.

(** On safe integers the page guard of the source, computed in binary64,
    is the integer condition. *)
Lemma pageGuard_on_safe_integers (next cp rpp total : Z) :
  isSafeInteger next -> isSafeInteger cp -> isSafeInteger rpp ->
  isSafeInteger total ->
  isSafeInteger (cp + 1) -> isSafeInteger (rpp * (cp + 1)) ->
  pageGuard (JSMath.ofInteger next) (JSMath.ofInteger cp) (JSMath.ofInteger rpp) (JSMath.ofInteger total)
    = (cp <? next) && (total <=? rpp * (cp + 1)).
Proof.
  intros Hn Hc Hr Ht Hc1 Hp.
  pose proof (ofInteger_represents next Hn) as Rn.
  pose proof (ofInteger_represents cp Hc) as Rc.
  pose proof (ofInteger_represents rpp Hr) as Rr.
  pose proof (ofInteger_represents total Ht) as Rt.
  pose proof (plus_one_exact cp _ Hc Hc1 Rc) as Rc1.
  pose proof (times_exact rpp (cp + 1) _ _ Hr Hc1 Hp Rr Rc1) as Rp.
  unfold pageGuard, JSMath.greater, JSMath.greaterEq, JSMath.times, JSMath.plus,
    SFltb, SFleb.
  rewrite (compare_exact cp next _ _ Hc Hn Rc Rn).
  rewrite (compare_exact total (rpp * (cp + 1)) _ _ Ht Hp Rt Rp).
  reflexivity.
Qed.

(** Why the safe range matters: in binary64, the arithmetic of the source,
    [5 * 1801439850948199] is 9007199254740996, one more than the integer
    product, and [9007199254740994 + 1] is 9007199254740996. *)
Example product_rounds_above_safe_range :
  JSMath.times (JSMath.ofInteger 5) (JSMath.ofInteger 1801439850948199)
    = JSMath.ofInteger 9007199254740996 /\
  5 * 1801439850948199 = 9007199254740995 /\
  JSMath.plus (JSMath.ofInteger 9007199254740994) JSMath.one
    = JSMath.ofInteger 9007199254740996.
Proof. vm_compute. split_and!; reflexivity. Qed.

(** C1. For safe integers (the page asked for, the page, the page size, the
    count, [currentPage + 1] and the product
    [rowsPerPage * (currentPage + 1)] all within [Number.MAX_SAFE_INTEGER],
    where the binary64 arithmetic of the source is exact), a page-change
    request is rejected (no setter is called, the state is left as it was)
    if and only if [next > currentPage] and
    [rowsPerPage * (currentPage + 1) >= totalCount]; otherwise [currentPage]
    becomes [next].  The condition as the source computes it on doubles
    decides the same.  With five rows a page and seven rows in all, page 1
    is accepted from page 0 and page 2 is rejected from page 1. *)
Theorem setPage_rejected_iff_guard (c : Component) (next cp rpp total : Z) :
  currentPage (state c) = Num cp ->
  rowsPerPage (state c) = Num rpp ->
  tokenTransfersTotal (state c) = Num total ->
  isSafeInteger next -> isSafeInteger cp -> isSafeInteger rpp ->
  isSafeInteger total ->
  isSafeInteger (cp + 1) -> isSafeInteger (rpp * (cp + 1)) ->
  (handleChangePage (state c) (Num next) = [] <->
     next > cp /\ rpp * (cp + 1) >= total) /\
  (next > cp /\ rpp * (cp + 1) >= total ->
     state (step c (PageChange (Num next))) = state c) /\
  (~ (next > cp /\ rpp * (cp + 1) >= total) ->
     handleChangePage (state c) (Num next) = [setCurrentPage (Num next)] /\
     currentPage (state (step c (PageChange (Num next)))) = Num next) /\
  (pageGuard (JSMath.ofInteger next) (JSMath.ofInteger cp)
     (JSMath.ofInteger rpp) (JSMath.ofInteger total) = true <->
   next > cp /\ rpp * (cp + 1) >= total) /\
  currentPage (run (onPage 0 7) (handleChangePage (onPage 0 7) (Num 1))) = Num 1 /\
  currentPage (run (onPage 1 7) (handleChangePage (onPage 1 7) (Num 2))) = Num 1.
Proof.
  intros Hcp Hrpp Htot Hn Hc Hr Ht Hc1 Hp.
  pose proof (handleChangePage_guard (state c) next cp rpp total Hcp Hrpp Htot) as Hg.
  rewrite state_PageChange, Hg.
  rewrite (pageGuard_on_safe_integers next cp rpp total Hn Hc Hr Ht Hc1 Hp).
  destruct (Z.ltb_spec cp next) as [Hlt | Hge];
    destruct (Z.leb_spec total (rpp * (cp + 1))) as [Hle | Hgt]; simpl.
  all: repeat split; intros; try reflexivity; try discriminate; lia.
Qed.

End SafeIntegers.

(** The claim at the spec's own figures: on page 0 of 7 rows, 5 a page. *)
Lemma setPage_rejected_iff_guard_witness :
  let c := {| AccountDetails.props := Samples.someAccountParams;
              AccountDetails.state := AccountDetails.onPage 0 7;
              AccountDetails.inflight := [];
              AccountDetails.console := [] |} in
  AccountDetails.handleChangePage (AccountDetails.state c) (Num 1)
    = [AccountDetails.setCurrentPage (Num 1)] /\
  AccountDetails.currentPage
    (AccountDetails.state (AccountDetails.step c (AccountDetails.PageChange (Num 1))))
    = Num 1 /\
  Binary64.pageGuard (JSMath.ofInteger 1) (JSMath.ofInteger 0)
    (JSMath.ofInteger 5) (JSMath.ofInteger 7) = false.
Proof.
  intro c.
  assert (Hsafe : forall z, -10 <= z <= 10 -> isSafeInteger z).
  { intros z Hz. unfold isSafeInteger, MAX_SAFE_INTEGER. lia. }
  destruct (setPage_rejected_iff_guard c 1 0 5 7 eq_refl eq_refl eq_refl
              (Hsafe 1 ltac:(lia)) (Hsafe 0 ltac:(lia)) (Hsafe 5 ltac:(lia))
              (Hsafe 7 ltac:(lia)) (Hsafe (0 + 1) ltac:(lia))
              (Hsafe (5 * (0 + 1)) ltac:(lia)))
    as (_ & _ & Hacc & Hg64 & _).
  assert (Hno : ~ (1 > 0 /\ 5 * (0 + 1) >= 7)) by lia.
  destruct (Hacc Hno) as [Hh Hp].
  split_and!; [exact Hh | exact Hp | ].
  destruct (Binary64.pageGuard _ _ _ _) eqn:Hg; [ | reflexivity].
  exfalso. apply Hno, Hg64. reflexivity.
Defined.

Section DashboardCounter.

Import Interfaces Dashboard.

Variable t : string -> string.
Variable formatDate : string -> string.

(** C9. For every sample [r] that [Math.random()] may return, a double with
    [0 <= r < 1], the counter [Math.floor(r * 1000)] is an integer from 0 to
    999.  The first summary card shows it under the "networkMembers" label
    whatever the fetched state is, so it is the same for any two states and
    the same sample; and it is no function of the state: the samples 0 and
    0.5 give the counters 0 and 500, hence two different renders of one and
    the same state. *)
Theorem networkMembers_is_a_random_counter (s1 s2 : State) (r : JSMath.double) :
  JSMath.is_random r = true ->
  (exists n, networkMembers r = Num n /\ 0 <= n <= 999) /\
  summaryPanels t s1 r !! 0%nat =
    Some (summaryPanel (t "networkMembers") (NumberText (networkMembers r))) /\
  summaryPanels t s1 r !! 0%nat = summaryPanels t s2 r !! 0%nat /\
  (loading s1 = false ->
   take 3 (leaves (render t formatDate s1 r)) =
     [LText (t "explorer"); LText (t "networkMembers"); LNumber (networkMembers r)]) /\
  (JSMath.is_random JSMath.zero = true /\ JSMath.is_random JSMath.half = true /\
   networkMembers JSMath.zero = Num 0 /\ networkMembers JSMath.half = Num 500 /\
   (loading s1 = false ->
    render t formatDate s1 JSMath.zero <> render t formatDate s1 JSMath.half)).
Proof.
  intros Hr.
  assert (Hshown : forall x, loading s1 = false ->
     take 3 (leaves (render t formatDate s1 x)) =
       [LText (t "explorer"); LText (t "networkMembers"); LNumber (networkMembers x)]).
  { intros x Hl. unfold render. rewrite Hl. reflexivity. }
  assert (H0 : networkMembers JSMath.zero = Num 0) by reflexivity.
  assert (H5 : networkMembers JSMath.half = Num 500) by (vm_compute; reflexivity).
  split_and!.
  - apply networkMembers_range. exact Hr.
  - reflexivity.
  - reflexivity.
  - intros Hl. apply Hshown. exact Hl.
  - vm_compute. reflexivity.
  - vm_compute. reflexivity.
  - exact H0.
  - exact H5.
  - intros Hl Heq.
    pose proof (Hshown JSMath.zero Hl) as Hz.
    pose proof (Hshown JSMath.half Hl) as Hh.
    rewrite Heq, Hh, H0, H5 in Hz. discriminate Hz.
Qed.

End DashboardCounter.

(** The claim C9 on the freshly mounted dashboard and the sample 0.5. *)
Lemma networkMembers_is_a_random_counter_witness :
  exists n, Dashboard.networkMembers JSMath.half = Num n /\ 0 <= n <= 999.
Proof.
  apply (networkMembers_is_a_random_counter (fun k => k) (fun d => d)
           Dashboard.initial Dashboard.initial JSMath.half).
  vm_compute. reflexivity.
Defined.

(** * Further properties of the views *)

(** ** AccountDetails: requests, responses and what stays untouched *)
Section AccountDetailsRequests.

Import AccountDetails Observe.

Variable t : string -> string.
Variable formatDate : string -> string.

Lemma handleChangePage_cases (s : State) (n : number) :
  handleChangePage s n = [] \/ handleChangePage s n = [setCurrentPage n].
Proof.
  unfold handleChangePage.
  destruct (gt n (currentPage s) && _); [left | right]; reflexivity.
Qed.

Lemma transfersDepsChanged_same (old new : State) :
  rowsPerPage new = rowsPerPage old -> currentPage new = currentPage old ->
  transfersDepsChanged old new = false.
Proof.
  intros Hr Hc. unfold transfersDepsChanged.
  rewrite !bool_decide_eq_true_2 by assumption. reflexivity.
Qed.

(** A page-change request touches nothing but [currentPage], and it issues a
    transfers request, one, for the new page, exactly when the page it
    leaves the component on differs from the page before: a rejected request
    and a request for the page already shown fetch nothing. *)
Theorem page_change_fetches_iff_page_changes (c : Component) (n : number) :
  let c' := step c (PageChange n) in
  (loading (state c') = loading (state c) /\
   tokenAccount (state c') = tokenAccount (state c) /\
   tokenTransfers (state c') = tokenTransfers (state c) /\
   tokenTransfersTotal (state c') = tokenTransfersTotal (state c) /\
   rowsPerPage (state c') = rowsPerPage (state c)) /\
  (currentPage (state c') = currentPage (state c) -> inflight c' = inflight c) /\
  (currentPage (state c') <> currentPage (state c) ->
     currentPage (state c') = n /\
     inflight c' =
       inflight c ++ [TransfersFetch (transfersRequest (props c) (state c'))]).
Proof.
  intros c'. subst c'. cbn [step].
  rewrite state_commit, inflight_commit.
  destruct (handleChangePage_cases (state c) n) as [-> | ->].
  - split_and!; try reflexivity.
    + intros _. rewrite transfersDepsChanged_same by reflexivity. apply app_nil_r.
    + intros Hne. exfalso. apply Hne. reflexivity.
  - split_and!; try reflexivity.
    + intros Heq. rewrite transfersDepsChanged_same; [apply app_nil_r | reflexivity | exact Heq].
    + intros Hne. split; [reflexivity | ].
      rewrite transfersDepsChanged_true; [reflexivity | right; exact Hne].
Qed.

Lemma next_page_decision (c : Component) (cp rpp total : Z) :
  currentPage (state c) = Num cp ->
  rowsPerPage (state c) = Num rpp ->
  tokenTransfersTotal (state c) = Num total ->
  let c' := step c (PageChange (Num (cp + 1))) in
  let r := transfersRequest (props c) (state c') in
  (rpp * (cp + 1) < total ->
     currentPage (state c') = Num (cp + 1) /\
     inflight c' = inflight c ++ [TransfersFetch r] /\
     param "skip" (query r) = Some (QNumber (Num (rpp * (cp + 1))))) /\
  (total <= rpp * (cp + 1) ->
     state c' = state c /\ inflight c' = inflight c).
Proof.
  intros Hcp Hrpp Htot c' r. subst c' r. cbn [step].
  rewrite state_commit, inflight_commit.
  rewrite (handleChangePage_guard (state c) (cp + 1) cp rpp total Hcp Hrpp Htot).
  replace (cp <? cp + 1) with true by (symmetry; apply Z.ltb_lt; lia).
  cbn [andb].
  destruct (Z.leb_spec total (rpp * (cp + 1))) as [Hle | Hlt].
  - split; [intros H; lia | intros _].
    split; [reflexivity | ].
    rewrite transfersDepsChanged_same by reflexivity. apply app_nil_r.
  - split; [intros _ | intros H; lia].
    set (s' := run (state c) [setCurrentPage (Num (cp + 1))]).
    assert (Hcp' : currentPage s' = Num (cp + 1)) by reflexivity.
    assert (Hrpp' : rowsPerPage s' = Num rpp) by exact Hrpp.
    split_and!.
    + exact Hcp'.
    + rewrite transfersDepsChanged_true; [reflexivity | ].
      right. rewrite Hcp', Hcp. intros Heq. injection Heq as Heq. lia.
    + change (Some (QNumber (mul (rowsPerPage s') (currentPage s')))
              = Some (QNumber (Num (rpp * (cp + 1))))).
      rewrite Hcp', Hrpp'. reflexivity.
Qed.

(** For safe integers (the page, the page size, the count, the next page
    [currentPage + 1] and its offset [rowsPerPage * (currentPage + 1)] all
    within [Number.MAX_SAFE_INTEGER], where the binary64 arithmetic of the
    source is exact), asking for the next page is accepted exactly when the
    offset of that page is below the count; the request then issued skips
    that many rows.  A next-page request for an offset at or beyond the count
    changes nothing and fetches nothing.  The condition as the source
    computes it on doubles refuses in exactly that case. *)
Theorem next_page_offset_is_below_total (c : Component) (cp rpp total : Z) :
  currentPage (state c) = Num cp ->
  rowsPerPage (state c) = Num rpp ->
  tokenTransfersTotal (state c) = Num total ->
  isSafeInteger cp -> isSafeInteger rpp -> isSafeInteger total ->
  isSafeInteger (cp + 1) -> isSafeInteger (rpp * (cp + 1)) ->
  let c' := step c (PageChange (Num (cp + 1))) in
  let r := transfersRequest (props c) (state c') in
  (rpp * (cp + 1) < total ->
     currentPage (state c') = Num (cp + 1) /\
     inflight c' = inflight c ++ [TransfersFetch r] /\
     param "skip" (query r) = Some (QNumber (Num (rpp * (cp + 1))))) /\
  (total <= rpp * (cp + 1) ->
     state c' = state c /\ inflight c' = inflight c) /\
  Binary64.pageGuard (JSMath.ofInteger (cp + 1)) (JSMath.ofInteger cp)
    (JSMath.ofInteger rpp) (JSMath.ofInteger total)
    = (total <=? rpp * (cp + 1)).
Proof.
  intros Hcp Hrpp Htot Hc Hr Ht Hc1 Hp c' r.
  destruct (next_page_decision c cp rpp total Hcp Hrpp Htot) as [Hacc Hrej].
  split_and!; [exact Hacc | exact Hrej | ].
  rewrite (pageGuard_on_safe_integers (cp + 1) cp rpp total Hc1 Hc Hr Ht Hc1 Hp).
  replace (cp <? cp + 1) with true by (symmetry; apply Z.ltb_lt; lia).
  reflexivity.
Qed.

Lemma run_app (s : State) (cs ds : list Call) :
  run s (cs ++ ds) = run (run s cs) ds.
Proof. unfold run. apply fold_left_app. Qed.

Lemma logged_app (cs ds : list Call) : logged (cs ++ ds) = logged cs ++ logged ds.
Proof. unfold logged. apply flat_map_app. Qed.

Lemma console_commit (c : Component) (cs : list Call) :
  console (commit c cs) = console c ++ logged cs.
Proof. unfold commit. destruct (transfersDepsChanged _ _); reflexivity. Qed.

(** A fetch that brings no data (the promise rejects, the status is not 2xx
    or the body does not parse) leaves the account, the transfers, the count,
    the page and the page size as they were and clears the loading flag; it
    issues no request.  A non-2xx status logs the one line "error fetching
    token pool" (for the transfers fetch as well); a rejection or a body
    that does not parse logs nothing. *)
Theorem fetch_without_data_only_clears_loading
  (c : Component) (r : Request)
  (ra : FetchResult (list ITokenAccount)) (rt : FetchResult TransfersBody) :
  (AccountFetch r ∈ inflight c -> noData ra = true ->
   let c' := step c (AccountSettles r ra) in
   tokenAccount (state c') = tokenAccount (state c) /\
   tokenTransfers (state c') = tokenTransfers (state c) /\
   tokenTransfersTotal (state c') = tokenTransfersTotal (state c) /\
   currentPage (state c') = currentPage (state c) /\
   rowsPerPage (state c') = rowsPerPage (state c) /\
   loading (state c') = false /\
   inflight c' = remove_first (AccountFetch r) (inflight c) /\
   console c' = console c ++
     match ra with
     | Response false _ => ["error fetching token pool"]
     | _ => []
     end) /\
  (TransfersFetch r ∈ inflight c -> noData rt = true ->
   let c' := step c (TransfersSettles r rt) in
   tokenAccount (state c') = tokenAccount (state c) /\
   tokenTransfers (state c') = tokenTransfers (state c) /\
   tokenTransfersTotal (state c') = tokenTransfersTotal (state c) /\
   currentPage (state c') = currentPage (state c) /\
   rowsPerPage (state c') = rowsPerPage (state c) /\
   loading (state c') = false /\
   inflight c' = remove_first (TransfersFetch r) (inflight c) /\
   console c' = console c ++
     match rt with
     | Response false _ => ["error fetching token pool"]
     | _ => []
     end).
Proof.
  split.
  - intros Hin Hno c'. subst c'. cbn [step].
    rewrite bool_decide_eq_true_2 by exact Hin.
    rewrite state_commit, inflight_commit, console_commit.
    destruct ra as [| [|] [body |]]; try discriminate Hno;
      (split_and!; try reflexivity;
       rewrite transfersDepsChanged_same by reflexivity; apply app_nil_r).
  - intros Hin Hno c'. subst c'. cbn [step].
    rewrite bool_decide_eq_true_2 by exact Hin.
    rewrite state_commit, inflight_commit, console_commit.
    destruct rt as [| [|] [body |]]; try discriminate Hno;
      (split_and!; try reflexivity;
       rewrite transfersDepsChanged_same by reflexivity; apply app_nil_r).
Qed.

(** Nothing ties a response to the render that asked for it: whichever
    transfers request in flight a 2xx response answers, an older one
    included, its count and its rows replace the ones held, the page and the
    page size stay as they are, the loading flag is cleared and no new
    request is issued. *)
Theorem any_transfers_response_is_applied
  (c : Component) (r : Request) (body : TransfersBody) :
  TransfersFetch r ∈ inflight c ->
  let c' := step c (TransfersSettles r (Response true (Some body))) in
  tokenTransfers (state c') = items body /\
  tokenTransfersTotal (state c') = total body /\
  currentPage (state c') = currentPage (state c) /\
  rowsPerPage (state c') = rowsPerPage (state c) /\
  tokenAccount (state c') = tokenAccount (state c) /\
  loading (state c') = false /\
  inflight c' = remove_first (TransfersFetch r) (inflight c).
Proof.
  intros Hin c'. subst c'. cbn [step].
  rewrite bool_decide_eq_true_2 by exact Hin.
  rewrite state_commit, inflight_commit.
  split_and!; try reflexivity.
  rewrite transfersDepsChanged_same by reflexivity. apply app_nil_r.
Qed.

(** When the transfers fetch is the first to settle after mounting, whatever
    its outcome, the view is blank (the empty fragment, not the spinner)
    although the account request is still in flight. *)
Theorem blank_while_account_is_in_flight
  (p : Props) (res : FetchResult TransfersBody) :
  let c := step (mount p) (TransfersSettles (transfersRequest p initial) res) in
  AccountFetch (accountRequest p) ∈ inflight c /\
  render t formatDate (props c) (state c) = Fragment [] /\
  leaves (render t formatDate (props c) (state c)) = [].
Proof.
  intros c.
  assert (Hin : TransfersFetch (transfersRequest p initial) ∈ inflight (mount p)).
  { apply list_elem_of_In. simpl. right. left. reflexivity. }
  assert (Hs : loading (state c) = false /\ tokenAccount (state c) = None).
  { subst c. cbn [step]. rewrite bool_decide_eq_true_2 by exact Hin.
    rewrite state_commit. destruct res as [| [|] [body |]]; split; reflexivity. }
  destruct Hs as [Hl Ha].
  assert (Hr : render t formatDate (props c) (state c) = Fragment []).
  { unfold render. rewrite Hl, Ha. reflexivity. }
  split_and!.
  - subst c. cbn [step]. rewrite bool_decide_eq_true_2 by exact Hin.
    rewrite inflight_commit. apply elem_of_app. left. cbn [settle inflight].
    apply remove_first_other; [discriminate | ].
    apply list_elem_of_In. left. reflexivity.
  - exact Hr.
  - rewrite Hr. reflexivity.
Qed.

End AccountDetailsRequests.

(** ** AccountDetails: what holds after any sequence of events *)
Section AccountDetailsInvariants.

Import AccountDetails Observe.

Lemma steps_invariant (P : Component -> Prop) :
  (forall c e, P c -> P (step c e)) ->
  forall es c, P c -> P (steps c es).
Proof.
  intros Hstep es. induction es as [| e es IH]; intros c Hc; simpl.
  - exact Hc.
  - apply IH, Hstep, Hc.
Qed.

Lemma steps_invariant_on (Q : Event -> Prop) (P : Component -> Prop) :
  (forall c e, Q e -> P c -> P (step c e)) ->
  forall es c, Forall Q es -> P c -> P (steps c es).
Proof.
  intros Hstep es. induction es as [| e es IH]; intros c Hes Hc; simpl.
  - exact Hc.
  - inversion Hes as [| e' es' He Hes']; subst.
    apply IH; [exact Hes' | ]. apply Hstep; assumption.
Qed.

Lemma remove_first_subset (f g : Fetch) (l : list Fetch) :
  g ∈ remove_first f l -> g ∈ l.
Proof.
  induction l as [| h l IH]; simpl; intros Hin.
  - exact Hin.
  - case_bool_decide.
    + apply elem_of_cons. right. exact Hin.
    + apply elem_of_cons in Hin. apply elem_of_cons.
      destruct Hin as [-> | Hin]; [left; reflexivity | right; auto].
Qed.

Lemma settled_keeps_paging
  (s : State) (ra : FetchResult (list ITokenAccount))
  (rt : FetchResult TransfersBody) :
  (currentPage (run s (accountSettled ra)) = currentPage s /\
   rowsPerPage (run s (accountSettled ra)) = rowsPerPage s) /\
  (currentPage (run s (transfersSettled rt)) = currentPage s /\
   rowsPerPage (run s (transfersSettled rt)) = rowsPerPage s).
Proof.
  split.
  - destruct ra as [| [|] [body |]]; split; reflexivity.
  - destruct rt as [| [|] [body |]]; split; reflexivity.
Qed.

Lemma spinnerHasRequest_step (c : Component) (e : Event) :
  spinnerHasRequest c -> spinnerHasRequest (step c e).
Proof.
  unfold spinnerHasRequest. intros Hc.
  destruct e as [n | event | r res | r res | p]; cbn [step].
  - rewrite state_commit, inflight_commit. intros Hl.
    destruct Hc as [r Hr].
    { destruct (handleChangePage_cases (state c) n) as [Hh | Hh];
        rewrite Hh in Hl; exact Hl. }
    exists r. apply elem_of_app. left. exact Hr.
  - rewrite state_commit, inflight_commit. intros Hl.
    destruct (Hc Hl) as [r Hr].
    exists r. apply elem_of_app. left. exact Hr.
  - case_bool_decide; [ | exact Hc].
    rewrite state_commit. unfold accountSettled. cbn [settle state].
    rewrite loading_after_finally. discriminate.
  - case_bool_decide; [ | exact Hc].
    rewrite state_commit. unfold transfersSettled. cbn [settle state].
    rewrite loading_after_finally. discriminate.
  - case_bool_decide; [exact Hc | ]. cbn [inflight]. intros _.
    exists (accountRequest p). apply elem_of_app. right.
    apply elem_of_cons. left. reflexivity.
Qed.

(** From mounting on, whatever events follow (page and page-size requests,
    responses in any order and with any outcome, changes of namespace or
    pool), the loading flag is up only while an account request is in
    flight: the spinner never outlives the requests that can clear it. *)
Theorem spinner_only_while_account_in_flight (p : Props) (es : list Event) :
  spinnerHasRequest (steps (mount p) es).
Proof.
  apply steps_invariant.
  - apply spinnerHasRequest_step.
  - intros _. exists (accountRequest p).
    apply list_elem_of_In. left. reflexivity.
Qed.

Lemma PAGE_LIMITS_cases (n : number) :
  n ∈ PAGE_LIMITS -> n = Num 5 \/ n = Num 10.
Proof.
  intros Hin. apply list_elem_of_In in Hin. simpl in Hin.
  destruct Hin as [H | [H | []]]; [left | right]; symmetry; exact H.
Qed.

Lemma pagedRequest_of_state (p : Props) (s : State) :
  pagedState s -> pagedRequest (transfersRequest p s).
Proof.
  intros [(cp & Hcp & Hcp0) Hrpp].
  assert (Hl : exists l, rowsPerPage s = Num l /\ 0 <= l).
  { destruct (PAGE_LIMITS_cases _ Hrpp) as [H | H]; rewrite H;
      eexists; (split; [reflexivity | lia]). }
  destruct Hl as (l & Hl & Hl0).
  exists l, (l * cp).
  change (Some (QNumber (rowsPerPage s)) = Some (QNumber (Num l)) /\
          Num l ∈ PAGE_LIMITS /\
          Some (QNumber (mul (rowsPerPage s) (currentPage s)))
            = Some (QNumber (Num (l * cp))) /\ 0 <= l * cp).
  rewrite <- Hl at 2. rewrite Hl, Hcp.
  split_and!; [reflexivity | rewrite <- Hl; exact Hrpp | reflexivity | nia].
Qed.

Lemma paged_commit (c : Component) (cs : list Call) :
  pagedState (run (state c) cs) ->
  (forall r, TransfersFetch r ∈ inflight c -> pagedRequest r) ->
  paged (commit c cs).
Proof.
  intros Hs Hreq. split.
  - rewrite state_commit. exact Hs.
  - intros r. rewrite inflight_commit. intros Hin.
    apply elem_of_app in Hin. destruct Hin as [Hin | Hin]; [auto | ].
    destruct (transfersDepsChanged _ _).
    + apply list_elem_of_singleton in Hin. injection Hin as ->.
      apply pagedRequest_of_state. exact Hs.
    + inversion Hin.
Qed.

Lemma paged_step (c : Component) (e : Event) :
  fromWidget e = true -> paged c -> paged (step c e).
Proof.
  intros He [Hs Hreq].
  destruct e as [n | event | r res | r res | p]; cbn [step].
  - apply paged_commit; [ | exact Hreq].
    destruct n as [k |]; [ | discriminate He]. simpl in He.
    apply Z.leb_le in He.
    destruct (handleChangePage_cases (state c) (Num k)) as [-> | ->].
    + exact Hs.
    + split; [exists k; split; [reflexivity | exact He] | exact (proj2 Hs)].
  - apply paged_commit; [ | exact Hreq].
    simpl in He. apply bool_decide_eq_true_1 in He.
    split; [exists 0; split; [reflexivity | lia] | exact He].
  - case_bool_decide; [ | split; assumption].
    apply paged_commit.
    + destruct (settled_keeps_paging (state c) res Rejected) as [[Hc Hr] _].
      cbn [settle state]. unfold pagedState. rewrite Hc, Hr. exact Hs.
    + intros r' Hin. apply Hreq. cbn [settle inflight] in Hin.
      apply remove_first_subset in Hin. exact Hin.
  - case_bool_decide; [ | split; assumption].
    apply paged_commit.
    + destruct (settled_keeps_paging (state c) Rejected res) as [_ [Hc Hr]].
      cbn [settle state]. unfold pagedState. rewrite Hc, Hr. exact Hs.
    + intros r' Hin. apply Hreq. cbn [settle inflight] in Hin.
      apply remove_first_subset in Hin. exact Hin.
  - case_bool_decide; [split; assumption | ].
    split.
    + exact Hs.
    + cbn [inflight]. intros r' Hin.
      apply elem_of_app in Hin. destruct Hin as [Hin | Hin]; [auto | ].
      apply elem_of_cons in Hin. destruct Hin as [Hin | Hin]; [discriminate Hin | ].
      apply list_elem_of_singleton in Hin. injection Hin as ->.
      apply pagedRequest_of_state. exact Hs.
Qed.

(** As long as the page requests are for non-negative pages and the page-size
    requests for one of the options, which is all the pagination widget
    produces, then from mounting on and whatever the responses are, the page
    stays a non-negative integer, the page size stays one of the options, and
    every transfers request ever in flight asks for 5 or 10 rows from a
    non-negative offset. *)
Theorem widget_events_keep_paging_wellformed (p : Props) (es : list Event) :
  Forall (fun e => fromWidget e = true) es ->
  paged (steps (mount p) es).
Proof.
  intros Hes.
  apply (steps_invariant_on (fun e => fromWidget e = true)); [ | exact Hes | ].
  - intros c e He Hc. apply paged_step; assumption.
  - assert (Hinit : pagedState initial).
    { split; [exists 0; split; [reflexivity | lia] | ].
      apply list_elem_of_In. left. reflexivity. }
    split; [exact Hinit | ].
    intros r Hin. apply list_elem_of_In in Hin. simpl in Hin.
    destruct Hin as [Hin | [Hin | []]]; [discriminate Hin | ].
    injection Hin as <-. apply pagedRequest_of_state. exact Hinit.
Qed.

Lemma settled_keeps_total
  (s : State) (ra : FetchResult (list ITokenAccount))
  (rt : FetchResult TransfersBody) :
  tokenTransfersTotal (run s (accountSettled ra)) = tokenTransfersTotal s /\
  (noData rt = true ->
   tokenTransfersTotal (run s (transfersSettled rt)) = tokenTransfersTotal s).
Proof.
  split.
  - destruct ra as [| [|] [body |]]; reflexivity.
  - destruct rt as [| [|] [body |]]; intros Hno; try discriminate Hno; reflexivity.
Qed.

Lemma awaitingData_step (c : Component) (e : Event) :
  fromWidget e = true /\ beforeData e = true ->
  awaitingData c -> awaitingData (step c e).
Proof.
  intros [He Hb] (Hcp & Htot & Hrpp). unfold awaitingData.
  destruct e as [n | event | r res | r res | p]; cbn [step].
  - rewrite state_commit.
    destruct n as [k |]; [ | discriminate He]. simpl in He.
    apply Z.leb_le in He.
    destruct (handleChangePage_cases (state c) (Num k)) as [Hh | Hh].
    + rewrite Hh. split_and!; assumption.
    + destruct (Z.eq_dec k 0) as [-> | Hk].
      * rewrite Hh. split_and!; [reflexivity | exact Htot | exact Hrpp].
      * exfalso.
        assert (Hl : exists l, rowsPerPage (state c) = Num l /\ 0 <= l).
        { destruct (PAGE_LIMITS_cases _ Hrpp) as [H | H]; rewrite H;
            eexists; (split; [reflexivity | lia]). }
        destruct Hl as (l & Hl & Hl0).
        assert (Hgt : gt (Num k) (currentPage (state c)) = true).
        { rewrite Hcp. simpl. apply Z.ltb_lt. lia. }
        rewrite (forward_advance_refused_at_zero_total (state c) (Num k) 0 l
                   Htot Hcp Hl ltac:(lia) Hl0 Hgt) in Hh.
        discriminate Hh.
  - rewrite state_commit. simpl in He. apply bool_decide_eq_true_1 in He.
    split_and!; [reflexivity | exact Htot | exact He].
  - case_bool_decide; [ | split_and!; assumption].
    rewrite state_commit. cbn [settle state].
    destruct (settled_keeps_paging (state c) res Rejected) as [[Hc Hr] _].
    destruct (settled_keeps_total (state c) res Rejected) as [Ht _].
    rewrite Hc, Hr, Ht. split_and!; assumption.
  - case_bool_decide; [ | split_and!; assumption].
    rewrite state_commit. cbn [settle state].
    destruct (settled_keeps_paging (state c) Rejected res) as [_ [Hc Hr]].
    destruct (settled_keeps_total (state c) Rejected res) as [_ Ht].
    simpl in Hb. rewrite Hc, Hr, (Ht Hb). split_and!; assumption.
  - case_bool_decide; split_and!; assumption.
Qed.

(** C4. The count starts at 0.  In every state the view reaches from
    mounting through the events its pagination widget can produce (pages
    that are not negative, page sizes among the options) and through
    responses of any kind, a count of 0 makes the guard refuse every forward
    page advance: no setter is called and the state, hence the page, stays
    as it was.  And as long as no transfers response has brought data, the
    count is still 0 and the page is still page 0. *)
Theorem forward_advance_rejected_while_total_is_zero
  (p : Props) (es : list Event) (next : number) :
  Forall (fun e => fromWidget e = true) es ->
  let c := steps (mount p) es in
  tokenTransfersTotal initial = Num 0 /\
  (tokenTransfersTotal (state c) = Num 0 ->
   gt next (currentPage (state c)) = true ->
   handleChangePage (state c) next = [] /\
   state (step c (PageChange next)) = state c /\
   inflight (step c (PageChange next)) = inflight c) /\
  (Forall (fun e => beforeData e = true) es ->
   tokenTransfersTotal (state c) = Num 0 /\ currentPage (state c) = Num 0).
Proof.
  intros Hes c. split_and!.
  - reflexivity.
  - intros Htot Hgt.
    assert (Hpaged : paged c).
    { subst c.
      apply (steps_invariant_on (fun e => fromWidget e = true)); [ | exact Hes | ].
      - intros c0 e He Hc0. apply paged_step; assumption.
      - assert (Hinit : pagedState initial).
        { split; [exists 0; split; [reflexivity | lia] | ].
          apply list_elem_of_In. left. reflexivity. }
        split; [exact Hinit | ].
        intros r Hin. apply list_elem_of_In in Hin. simpl in Hin.
        destruct Hin as [Hin | [Hin | []]]; [discriminate Hin | ].
        injection Hin as <-. apply pagedRequest_of_state. exact Hinit. }
    destruct Hpaged as [[(cp & Hcp & Hcp0) Hrpp] _].
    assert (Hl : exists l, rowsPerPage (state c) = Num l /\ 0 <= l).
    { destruct (PAGE_LIMITS_cases _ Hrpp) as [H | H]; rewrite H;
        eexists; (split; [reflexivity | lia]). }
    destruct Hl as (l & Hl & Hl0).
    pose proof (forward_advance_refused_at_zero_total (state c) next cp l
                  Htot Hcp Hl Hcp0 Hl0 Hgt) as Hrej.
    split_and!.
    + exact Hrej.
    + rewrite state_PageChange, Hrej. reflexivity.
    + cbn [step]. rewrite inflight_commit, Hrej.
      rewrite transfersDepsChanged_same by reflexivity. apply app_nil_r.
  - intros Hbefore.
    assert (Hboth : Forall (fun e => fromWidget e = true /\ beforeData e = true) es).
    { apply Forall_and. split; assumption. }
    assert (Hwait : awaitingData c).
    { subst c.
      apply (steps_invariant_on
               (fun e => fromWidget e = true /\ beforeData e = true));
        [ | exact Hboth | ].
      - intros c0 e He Hc0. apply awaitingData_step; assumption.
      - split_and!; [reflexivity | reflexivity | ].
        apply list_elem_of_In. left. reflexivity. }
    destruct Hwait as (Hcp & Htot & _). split; assumption.
Qed.

End AccountDetailsInvariants.

(** The claim C4 on the mounted view after a request for page 0, a request
    for ten rows a page, a failed transfers response and the account's
    arrival, asked for page 1. *)
Lemma forward_advance_rejected_while_total_is_zero_witness :
  let p := Samples.someAccountParams in
  let es := [AccountDetails.PageChange (Num 0);
             AccountDetails.RowsPerPageChange
               {| AccountDetails.target_value := VNumber (Num 10) |};
             AccountDetails.TransfersSettles
               (AccountDetails.transfersRequest p AccountDetails.initial)
               (Response false None);
             AccountDetails.AccountSettles (AccountDetails.accountRequest p)
               (Response true (Some [Samples.someAccount]))] in
  let c := AccountDetails.steps (AccountDetails.mount p) es in
  AccountDetails.tokenTransfersTotal (AccountDetails.state c) = Num 0 /\
  AccountDetails.currentPage (AccountDetails.state c) = Num 0 /\
  AccountDetails.handleChangePage (AccountDetails.state c) (Num 1) = [] /\
  AccountDetails.state (AccountDetails.step c (AccountDetails.PageChange (Num 1)))
    = AccountDetails.state c.
Proof.
  intros p es c.
  assert (Hes : Forall (fun e => Observe.fromWidget e = true) es)
    by (repeat constructor).
  assert (Hbefore : Forall (fun e => Observe.beforeData e = true) es)
    by (repeat constructor).
  destruct (forward_advance_rejected_while_total_is_zero p es (Num 1) Hes)
    as (_ & Hrej & Hzero).
  destruct (Hzero Hbefore) as [Htot Hcp].
  fold c in Htot, Hcp, Hrej.
  assert (Hgt : gt (Num 1) (AccountDetails.currentPage (AccountDetails.state c)) = true).
  { rewrite Hcp. reflexivity. }
  destruct (Hrej Htot Hgt) as (Hh & Hs & _).
  split_and!; assumption.
Defined.

(** ** AccountDetails: the table, the details panel and the namespace *)
Section AccountDetailsRendering.

Import AccountDetails Observe.

Variable t : string -> string.
Variable formatDate : string -> string.

Lemma iconChild_cases (ty : string) :
  (exists name, iconChild ty = icon name) \/
  iconChild ty = Foreign ty \/ iconChild ty = Nothing.
Proof.
  unfold iconChild, JSObject.get. rewrite transferIconMap_lookup.
  repeat case_bool_decide; eauto.
Qed.

Lemma attrs_of_iconChild (ty : string) : attrs_of (iconChild ty) = [].
Proof.
  destruct (iconChild_cases ty) as [[name ->] | [-> | ->]]; reflexivity.
Qed.

Lemma addressCell_shown (a : option string) :
  leaves (addressCell a) = addressLeaves a /\
  attrs_of (addressCell a) = addressAttrs a /\
  props_of (addressCell a) = [].
Proof.
  unfold addressCell, addressLeaves, addressAttrs.
  destruct a as [i |]; cbn [truthy default].
  - destruct (String.eqb i ""); split_and!; reflexivity.
  - split_and!; reflexivity.
Qed.

(** The rows of the transfer table follow the transfers held: one row per
    transfer, in the same order, keyed by the transaction id, each with as
    many cells as there are column headers.  A row reads, after the icon,
    the translated type, the amount, the placeholder "---" for a sender or a
    recipient that is missing or empty, and the formatted creation date.
    Its hash displays are, in order, the short hash of the transaction id,
    then the short hash of the sender when there is one, then the short hash
    of the recipient when there is one: a present address is shown as a hash
    of exactly that address and not as text.  The cells carry no handler. *)
Theorem transfer_rows_follow_transfers (s : State) :
  length (tokenTransfersRecords t formatDate s) = length (tokenTransfers s) /\
  map fst (tokenTransfersRecords t formatDate s) = map tx_id (tokenTransfers s) /\
  Forall (fun row => length (snd row) = length (tokenTransfersColumnHeaders t))
    (tokenTransfersRecords t formatDate s) /\
  (forall (i : nat) tr, tokenTransfers s !! i = Some tr ->
     exists cells,
       tokenTransfersRecords t formatDate s !! i = Some (tx_id tr, cells) /\
       flat_map leaves cells =
         leaves (iconChild (type tr)) ++
         [LText (t (type tr)); LText (amount tr)] ++
         addressLeaves (from tr) ++ addressLeaves (to tr) ++
         [LText (formatDate (created tr))] /\
       flat_map attrs_of cells =
         [("HashPopover", "shortHash", AFlag true);
          ("HashPopover", "textColor", AText "primary");
          ("HashPopover", "address", AText (tx_id tr))] ++
         addressAttrs (from tr) ++ addressAttrs (to tr) /\
       flat_map props_of cells = [] /\
       (forall a, from tr = Some a -> a <> "" ->
          cells !! 3%nat =
            Some (HashPopover [("shortHash", AFlag true); ("textColor", AText "primary")] a)) /\
       (forall a, to tr = Some a -> a <> "" ->
          cells !! 4%nat =
            Some (HashPopover [("shortHash", AFlag true); ("textColor", AText "primary")] a)) /\
       (from tr = None \/ from tr = Some "" -> cells !! 3%nat = Some (Text "---")) /\
       (to tr = None \/ to tr = Some "" -> cells !! 4%nat = Some (Text "---"))).
Proof.
  unfold tokenTransfersRecords. split_and!.
  - apply length_map.
  - rewrite map_map. reflexivity.
  - induction (tokenTransfers s) as [| tr l IH]; constructor;
      [reflexivity | exact IH].
  - intros i tr Hi.
    exists (snd (tokenTransfersRecord t formatDate tr)).
    destruct (addressCell_shown (from tr)) as (Hfl & Hfa & Hfp).
    destruct (addressCell_shown (to tr)) as (Htl & Hta & Htp).
    assert (Htruthy : forall a, a <> "" -> truthy (Some a) = true).
    { intros a Ha. simpl. apply negb_true_iff, String.eqb_neq. exact Ha. }
    split_and!.
    + change (map (tokenTransfersRecord t formatDate) (tokenTransfers s))
        with (tokenTransfersRecord t formatDate <$> tokenTransfers s).
      rewrite list_lookup_fmap, Hi. reflexivity.
    + unfold tokenTransfersRecord.
      cbn [snd flat_map leaves app HashPopover].
      rewrite Hfl, Htl. rewrite !app_nil_r. reflexivity.
    + unfold tokenTransfersRecord.
      cbn [snd flat_map attrs_of map app HashPopover fst].
      rewrite attrs_of_iconChild, Hfa, Hta. rewrite !app_nil_r. reflexivity.
    + unfold tokenTransfersRecord.
      cbn [snd flat_map props_of map app HashPopover].
      rewrite Hfp, Htp.
      destruct (iconChild_cases (type tr)) as [[name ->] | [-> | ->]]; reflexivity.
    + intros a Ha Hne. unfold tokenTransfersRecord, addressCell. cbn [snd].
      rewrite Ha, (Htruthy a Hne). reflexivity.
    + intros a Ha Hne. unfold tokenTransfersRecord, addressCell. cbn [snd].
      rewrite Ha, (Htruthy a Hne). reflexivity.
    + intros [Ha | Ha]; unfold tokenTransfersRecord, addressCell; cbn [snd];
        rewrite Ha; reflexivity.
    + intros [Ha | Ha]; unfold tokenTransfersRecord, addressCell; cbn [snd];
        rewrite Ha; reflexivity.
Qed.

Lemma props_of_iconChild (ty : string) : props_of (iconChild ty) = [].
Proof.
  destruct (iconChild_cases ty) as [[name ->] | [-> | ->]]; reflexivity.
Qed.

Lemma props_of_record (tr : ITokenTransfer) :
  flat_map props_of (snd (tokenTransfersRecord t formatDate tr)) = [].
Proof.
  unfold tokenTransfersRecord, addressCell. cbn [snd flat_map props_of map app].
  rewrite props_of_iconChild.
  destruct (truthy (from tr)), (truthy (to tr)); reflexivity.
Qed.

Lemma props_of_table
  (attrs : list (string * Attr)) (hs : list string)
  (l : list ITokenTransfer) (pg : Node Handler) :
  props_of (DataTable attrs hs (map (tokenTransfersRecord t formatDate) l) (Some pg))
    = props_of pg.
Proof.
  cbn [props_of].
  induction l as [| tr l IH].
  - reflexivity.
  - cbn [map]. destruct (tokenTransfersRecord t formatDate tr) as [k cells] eqn:Hrec.
    pose proof (props_of_record tr) as Hcells. rewrite Hrec in Hcells.
    cbn [snd] in Hcells.
    match goal with
    | |- (?inner cells ++ ?rest) ++ _ = _ =>
        assert (Hi : inner cells = flat_map props_of cells)
    end.
    { clear. induction cells as [| x cells IHc]; [reflexivity | ].
      cbn [flat_map]. rewrite <- IHc. reflexivity. }
    rewrite Hi, Hcells. exact IH.
Qed.

(** With the account loaded, the view offers the pagination controls exactly
    when it holds transfers.  Without transfers it shows the empty-state
    message and its only handler is the breadcrumb link back to the accounts
    of the namespace; with transfers the handlers of the pagination widget
    are there as well (the rows themselves carry none). *)
Theorem pagination_iff_transfers (p : Props) (s : State) (a : ITokenAccount) :
  loading s = false -> tokenAccount s = Some a ->
  let back := ("Link", "onClick",
               history_push ("/namespace/" +:+ selectedNamespace p
                             +:+ "/tokens/accounts/")) in
  (tokenTransfers s = [] ->
     props_of (render t formatDate p s) = [back] /\
     In ("DataTableEmptyState", "message", AText (t "noTokenTransfersToDisplay"))
        (attrs_of (render t formatDate p s))) /\
  (tokenTransfers s <> [] ->
     props_of (render t formatDate p s) =
       [back;
        ("TablePagination", "onPageChange", onPageChange);
        ("TablePagination", "onRowsPerPageChange", onRowsPerPageChange);
        ("TablePagination", "labelDisplayedRows", labelDisplayedRows)]).
Proof.
  intros Hl Ha back. unfold render. rewrite Hl, Ha. split.
  - intros He. rewrite He. unfold detailsData.
    destruct (truthy (tokenIndex a));
      (split; [reflexivity | cbn; repeat (first [left; reflexivity | right])]).
  - intros Hne.
    assert (Hnz : nonzero (length (tokenTransfers s)) = true).
    { destruct (tokenTransfers s); [congruence | reflexivity]. }
    rewrite Hnz. unfold tokenTransfersRecords.
    match goal with
    | |- context [DataTable ?x ?h ?rows ?pg] =>
        remember (DataTable x h rows pg) as table eqn:Htable
    end.
    assert (Htab : props_of table = props_of (pagination s)).
    { rewrite Htable. apply props_of_table. }
    clear Htable. unfold detailsData.
    destruct (truthy (tokenIndex a)); cbn; rewrite Htab; reflexivity.
Qed.

(** A 2xx account response with a non-empty list makes its first element the
    account shown, whatever follows it in the list, and clears the flag; the
    details panel then reads, in order, the translated pool id, the
    translated token index or "---" when the index is missing or empty, the
    connector, the balance and the formatted update date, each after its
    label.  The key has no text: under its label, between the rows of the
    connector and of the balance, it is shown as the hash display of exactly
    the account's key, the one hash display of the panel. *)
Theorem first_account_is_shown
  (c : Component) (r : Request) (a : ITokenAccount) (rest : list ITokenAccount) :
  AccountFetch r ∈ inflight c ->
  let c' := step c (AccountSettles r (Response true (Some (a :: rest)))) in
  tokenAccount (state c') = Some a /\
  loading (state c') = false /\
  take 15 (leaves (render t formatDate (props c') (state c'))) =
    [LText (t "accounts"); LText (t "accountDetails"); LText (t "accountDetails");
     LText (t "details");
     LText (t "poolProtocolID"); LText (t (poolProtocolId a));
     LText (t "tokenIndex");
     LText match tokenIndex a with
           | Some i => if String.eqb i "" then "---" else t i
           | None => "---"
           end;
     LText (t "connector"); LText (connector a);
     LText (t "key");
     LText (t "balance"); LText (balance a);
     LText (t "updated"); LText (formatDate (updated a))] /\
  take 7 (attrs_of (render t formatDate (props c') (state c'))) =
    [("React.Fragment", "key", AText (t "poolProtocolID"));
     ("React.Fragment", "key", AText (t "tokenIndex"));
     ("React.Fragment", "key", AText (t "connector"));
     ("React.Fragment", "key", AText (t "key"));
     ("HashPopover", "address", AText (key a));
     ("React.Fragment", "key", AText (t "balance"));
     ("React.Fragment", "key", AText (t "updated"))] /\
  snd <$> detailsData t formatDate a !! 3%nat = Some (HashPopover [] (key a)).
Proof.
  intros Hin c'. subst c'. cbn [step].
  rewrite bool_decide_eq_true_2 by exact Hin.
  rewrite state_commit, props_commit. cbn [settle state props].
  set (s' := run (state c) (accountSettled (Response true (Some (a :: rest))))).
  assert (Ha : tokenAccount s' = Some a) by reflexivity.
  assert (Hl : loading s' = false) by reflexivity.
  split_and!; [exact Ha | exact Hl | | | reflexivity].
  - unfold render. rewrite Hl, Ha. unfold detailsData.
    destruct (tokenIndex a) as [i |]; cbn [truthy default].
    + destruct (String.eqb i ""); reflexivity.
    + reflexivity.
  - unfold render. rewrite Hl, Ha. unfold detailsData.
    destruct (truthy (tokenIndex a)); reflexivity.
Qed.


End AccountDetailsRendering.

(** ** Dashboard: what a load leaves behind and what is shown *)
Section DashboardLoad.

Import Interfaces Dashboard Observe.

Variable t : string -> string.
Variable formatDate : string -> string.

(** When the three responses are 2xx, the bodies are read in the order
    messages, transactions, sequence probe, each stored as soon as it is
    read: the first body that does not parse ends the population there, with
    the earlier ones stored and the later ones left as they were.  When all
    three parse, [messages] holds the first response, [txSequence] the second
    and [transactions] the third.  The flag is cleared in each case. *)
Theorem load_populates_in_source_order
  (s : State) (ms : list IMessage) (sq ts : list ITransaction)
  (sj tj : option (list ITransaction)) :
  let all := run s (settled (Response true (Some ms)) (Response true (Some sq))
                      (Response true (Some ts))) in
  let noMessages := run s (settled (Response true None) (Response true sj)
                             (Response true tj)) in
  let noTransactions := run s (settled (Response true (Some ms)) (Response true sj)
                                 (Response true None)) in
  let noSequence := run s (settled (Response true (Some ms)) (Response true None)
                             (Response true (Some ts))) in
  (messages all = ms /\ txSequence all = sq /\ transactions all = ts /\
   loading all = false) /\
  (messages noMessages = messages s /\ txSequence noMessages = txSequence s /\
   transactions noMessages = transactions s /\ loading noMessages = false) /\
  (messages noTransactions = ms /\ txSequence noTransactions = txSequence s /\
   transactions noTransactions = transactions s /\ loading noTransactions = false) /\
  (messages noSequence = ms /\ txSequence noSequence = txSequence s /\
   transactions noSequence = ts /\ loading noSequence = false).
Proof.
  intros all noMessages noTransactions noSequence.
  subst all noMessages noTransactions noSequence.
  split_and!; try reflexivity; destruct sj, tj; reflexivity.
Qed.

(** When one of the three fetches rejects, the callback on the responses is
    skipped: whatever the other two bring, the three entities are left as
    they were and only the flag is cleared. *)
Theorem rejected_fetch_populates_nothing
  (s : State) (rm : FetchResult (list IMessage))
  (rs rt : FetchResult (list ITransaction)) :
  rm = Rejected \/ rs = Rejected \/ rt = Rejected ->
  settled rm rs rt = [setLoading false] /\
  messages (run s (settled rm rs rt)) = messages s /\
  txSequence (run s (settled rm rs rt)) = txSequence s /\
  transactions (run s (settled rm rs rt)) = transactions s /\
  loading (run s (settled rm rs rt)) = false.
Proof.
  intros Hrej.
  assert (Hs : settled rm rs rt = [setLoading false]).
  { unfold settled, allThen.
    destruct Hrej as [-> | [-> | ->]]; [ | destruct rm | destruct rm, rs];
      reflexivity. }
  rewrite Hs. split_and!; reflexivity.
Qed.

(** The rows of the message table follow the messages held: one row per
    message, in the same order, keyed by the message id, each with as many
    cells as there are column headers; a row's text is the message type and
    the formatted creation date (author and data hash are shown as
    hashes). *)
Theorem message_rows_follow_messages (s : State) :
  length (messageRecords formatDate s) = length (messages s) /\
  map fst (messageRecords formatDate s) = map (fun m => id (header m)) (messages s) /\
  Forall (fun row => length (snd row) = length (messageColumnHeaders t))
    (messageRecords formatDate s) /\
  (forall (i : nat) m, messages s !! i = Some m ->
     exists cells,
       messageRecords formatDate s !! i = Some (id (header m), cells) /\
       flat_map leaves cells =
         [LText (type (header m)); LText (formatDate (created (header m)))] /\
       flat_map attrs_of cells =
         [("HashPopover", "textColor", AText "secondary");
          ("HashPopover", "address", AText (author (header m)));
          ("HashPopover", "textColor", AText "secondary");
          ("HashPopover", "address", AText (datahash (header m)))]).
Proof.
  unfold messageRecords. split_and!.
  - apply length_map.
  - rewrite map_map. reflexivity.
  - induction (messages s) as [| m l IH]; constructor; [reflexivity | exact IH].
  - intros i m Hi. exists (snd (messageRecord formatDate m)). split_and!.
    + change (map (messageRecord formatDate) (messages s))
        with (messageRecord formatDate <$> messages s).
      rewrite list_lookup_fmap, Hi. reflexivity.
    + reflexivity.
    + reflexivity.
Qed.

(** After a load whose three responses are 2xx and parse, the view is out of
    the loading state and its counters read: the random network members
    count, then the sequence number of the first message received, or 0 when
    none was, then the sequence number of the first transaction of the
    [limit=1] probe, or 0 when the probe is empty; the list of the last day's
    transactions plays no part in the counters. *)
Theorem loaded_dashboard_counters
  (s : State) (ms : list IMessage) (sq ts : list ITransaction)
  (random : JSMath.double) :
  let s' := run s (settled (Response true (Some ms)) (Response true (Some sq))
                     (Response true (Some ts))) in
  take 7 (leaves (render t formatDate s' random)) =
    [LText (t "explorer");
     LText (t "networkMembers"); LNumber (networkMembers random);
     LText (t "messages");
     LNumber (from_option sequence (Num 0) (head ms));
     LText (t "transactions");
     LNumber (from_option transaction_sequence (Num 0) (head sq))].
Proof.
  intros s'. subst s'. unfold render, settled, allThen, onResponses.
  cbn [andb app run fold_left reduce loading messages txSequence transactions].
  destruct ms as [| m ms], sq as [| x sq]; reflexivity.
Qed.

Lemma sampleCounts_all :
  forallb (fun k => sampleCounts (Z.of_nat k)) (seq 0 1000) = true.
Proof. vm_compute. reflexivity. Qed.

(** Every integer from 0 to 999 is the counter of some sample that
    [Math.random()] may return: the range of the network members count is
    exactly 0..999. *)
Theorem every_count_is_attained (n : Z) :
  0 <= n <= 999 ->
  exists r, JSMath.is_random r = true /\ networkMembers r = Num n.
Proof.
  intros Hn.
  pose proof sampleCounts_all as Hall.
  rewrite forallb_forall in Hall.
  specialize (Hall (Z.to_nat n)).
  rewrite Z2Nat.id in Hall by lia.
  assert (Hin : In (Z.to_nat n) (seq 0 1000)) by (apply in_seq; lia).
  specialize (Hall Hin). unfold sampleCounts in Hall.
  apply andb_prop in Hall. destruct Hall as [Hr Hc].
  apply bool_decide_eq_true_1 in Hc.
  exists (sampleFor n). split; assumption.
Qed.

End DashboardLoad.

(** ** MessageDetails: the batch request and the navigation action *)
Section MessageDetailsBatch.

Import Interfaces MessageDetails Observe.

Variable t : string -> string.
Variable formatDate : string -> string.

Lemma render_props (p : Props) (s : State) :
  loading s = false ->
  props_of (render t formatDate p s) =
    ("DisplaySlide", "onClose", onClose) ::
    (if truthy (txId s) then [viewTx p (default "" (txId s))] else []).
Proof.
  intros Hl. unfold render. rewrite Hl. unfold pinned, viewTx.
  destruct (truthy (txId s)); reflexivity.
Qed.

(** While the batch request is in flight the panel is replaced by the
    spinner, which offers no handler, not even the one that closes the
    panel.  When the batch answers 2xx, its transaction id becomes the
    resolved id and the flag is cleared; the panel then offers the close
    handler and, unless the id is empty, the button that pushes
    [/transactions/<id>] with the current message and open flag. *)
Theorem resolved_batch_offers_navigation (p : Props) (s : State) (batch : IBatch) :
  let s' := batchSettles p s (Response true (Some batch)) in
  props_of (render t formatDate p (run s (fst (effect p)))) = [] /\
  txId s' = Some (payload_tx_id batch) /\
  loading s' = false /\
  (payload_tx_id batch <> "" ->
     props_of (render t formatDate p s') =
       [("DisplaySlide", "onClose", onClose); viewTx p (payload_tx_id batch)]) /\
  (payload_tx_id batch = "" ->
     props_of (render t formatDate p s') = [("DisplaySlide", "onClose", onClose)]).
Proof.
  intros s'.
  assert (Hid : txId s' = Some (payload_tx_id batch)) by reflexivity.
  assert (Hl : loading s' = false) by reflexivity.
  split_and!; try reflexivity.
  - intros Hne. rewrite (render_props p s' Hl), Hid.
    cbn [truthy default]. apply String.eqb_neq in Hne. rewrite Hne. reflexivity.
  - intros He. rewrite (render_props p s' Hl), Hid.
    cbn [truthy default]. rewrite He. reflexivity.
Qed.

(** A batch request that brings no data (rejection, non-2xx status or a body
    that does not parse) clears the flag and leaves the resolved id as it
    was; nothing resets it when the message changes.  So the panel of a
    message whose batch cannot be resolved still offers the navigation to the
    transaction resolved before, now with the new message as payload. *)
Theorem unresolved_batch_keeps_previous_id
  (p : Props) (s : State) (res : FetchResult IBatch) :
  noData res = true ->
  let s' := batchSettles p s res in
  txId s' = txId s /\
  loading s' = false /\
  (forall i, txId s = Some i -> i <> "" ->
     props_of (render t formatDate p s') =
       [("DisplaySlide", "onClose", onClose); viewTx p i]) /\
  (txId s = None ->
     props_of (render t formatDate p s') = [("DisplaySlide", "onClose", onClose)]).
Proof.
  intros Hno s'.
  assert (Hs : txId s' = txId s /\ loading s' = false).
  { subst s'. unfold batchSettles.
    destruct res as [| [|] [b |]]; try discriminate Hno; split; reflexivity. }
  destruct Hs as [Hid Hl].
  split_and!; [exact Hid | exact Hl | | ].
  - intros i Hi Hne. rewrite (render_props p s' Hl), Hid, Hi.
    cbn [truthy default]. apply String.eqb_neq in Hne. rewrite Hne. reflexivity.
  - intros Hi. rewrite (render_props p s' Hl), Hid, Hi. reflexivity.
Qed.

End MessageDetailsBatch.

(** ** The properties above on sample inputs *)

(** Page 1 of seven rows, five a page, asked from page 0. *)
Lemma next_page_offset_is_below_total_witness :
  let c := {| AccountDetails.props := Samples.someAccountParams;
              AccountDetails.state := AccountDetails.onPage 0 7;
              AccountDetails.inflight := [];
              AccountDetails.console := [] |} in
  let c' := AccountDetails.step c (AccountDetails.PageChange (Num (0 + 1))) in
  let r := AccountDetails.transfersRequest (AccountDetails.props c)
             (AccountDetails.state c') in
  (5 * (0 + 1) < 7 ->
     AccountDetails.currentPage (AccountDetails.state c') = Num (0 + 1) /\
     AccountDetails.inflight c' =
       AccountDetails.inflight c ++ [AccountDetails.TransfersFetch r] /\
     param "skip" (query r) = Some (QNumber (Num (5 * (0 + 1))))) /\
  (7 <= 5 * (0 + 1) ->
     AccountDetails.state c' = AccountDetails.state c /\
     AccountDetails.inflight c' = AccountDetails.inflight c) /\
  Binary64.pageGuard (JSMath.ofInteger (0 + 1)) (JSMath.ofInteger 0)
    (JSMath.ofInteger 5) (JSMath.ofInteger 7)
    = (7 <=? 5 * (0 + 1)).
Proof.
  intro c.
  apply (next_page_offset_is_below_total c 0 5 7);
    try reflexivity; unfold isSafeInteger, MAX_SAFE_INTEGER; lia.
Defined.

(** The response to the request for five rows arrives after the page size
    was set to ten: its rows are shown all the same. *)
Lemma any_transfers_response_is_applied_witness :
  let c := AccountDetails.step (AccountDetails.mount Samples.someAccountParams)
             (AccountDetails.RowsPerPageChange
                {| AccountDetails.target_value := VString "10" |}) in
  let r := AccountDetails.transfersRequest Samples.someAccountParams
             AccountDetails.initial in
  let body := {| AccountDetails.total := Num 1;
                 AccountDetails.items := [Samples.someTransfer] |} in
  let c' := AccountDetails.step c
              (AccountDetails.TransfersSettles r (Response true (Some body))) in
  param "limit" (query r) = Some (QNumber (Num 5)) /\
  AccountDetails.rowsPerPage (AccountDetails.state c') = Num 10 /\
  AccountDetails.tokenTransfers (AccountDetails.state c') = [Samples.someTransfer].
Proof.
  intros c r body c'.
  assert (Hin : AccountDetails.TransfersFetch r ∈ AccountDetails.inflight c).
  { apply list_elem_of_In. vm_compute. right. left. reflexivity. }
  destruct (any_transfers_response_is_applied c r body Hin)
    as (Hitems & _ & _ & Hrpp & _).
  split_and!; [reflexivity | | exact Hitems].
  fold c' in Hrpp. rewrite Hrpp. reflexivity.
Defined.

(** A page request, a page-size request and a response, as the widget and
    the server produce them. *)
Lemma widget_events_keep_paging_wellformed_witness :
  Observe.paged
    (AccountDetails.steps (AccountDetails.mount Samples.someAccountParams)
       [AccountDetails.PageChange (Num 1);
        AccountDetails.RowsPerPageChange
          {| AccountDetails.target_value := VNumber (Num 10) |};
        AccountDetails.TransfersSettles
          (AccountDetails.transfersRequest Samples.someAccountParams
             AccountDetails.initial)
          (Response true (Some {| AccountDetails.total := Num 7;
                                  AccountDetails.items := [Samples.someTransfer] |}))]).
Proof.
  apply widget_events_keep_paging_wellformed.
  repeat constructor.
Defined.

(** The loaded account without transfers, with identity translation. *)
Lemma pagination_iff_transfers_witness :
  let s := AccountDetails.run AccountDetails.initial
             [AccountDetails.setTokenAccount (Some Samples.someAccount)] in
  UI.props_of (AccountDetails.render (fun k => k) (fun d => d)
                 Samples.someAccountParams s) =
    [("Link", "onClick",
      AccountDetails.history_push "/namespace/default/tokens/accounts/")].
Proof.
  intro s.
  destruct (pagination_iff_transfers (fun k => k) (fun d => d)
              Samples.someAccountParams s Samples.someAccount
              eq_refl eq_refl) as [Hempty _].
  destruct (Hempty eq_refl) as [Hprops _].
  exact Hprops.
Defined.

(** The account request of the freshly mounted view answers with one
    account. *)
Lemma first_account_is_shown_witness :
  let c := AccountDetails.mount Samples.someAccountParams in
  let c' := AccountDetails.step c
              (AccountDetails.AccountSettles
                 (AccountDetails.accountRequest Samples.someAccountParams)
                 (Response true (Some [Samples.someAccount]))) in
  AccountDetails.tokenAccount (AccountDetails.state c') = Some Samples.someAccount /\
  AccountDetails.loading (AccountDetails.state c') = false.
Proof.
  intros c c'.
  assert (Hin : AccountDetails.AccountFetch
                  (AccountDetails.accountRequest Samples.someAccountParams)
                ∈ AccountDetails.inflight c).
  { apply list_elem_of_In. left. reflexivity. }
  destruct (first_account_is_shown (fun k => k) (fun d => d) c _
              Samples.someAccount [] Hin) as (Ha & Hl & _ & _ & _).
  split; assumption.
Defined.


(** The sequence probe rejects while the other two answer with data. *)
Lemma rejected_fetch_populates_nothing_witness :
  Dashboard.settled (Response true (Some [Samples.someMessage])) Rejected
    (Response true (Some [Samples.someTransaction]))
    = [Dashboard.setLoading false].
Proof.
  apply (rejected_fetch_populates_nothing Dashboard.initial).
  right. left. reflexivity.
Defined.

(** The count 999. *)
Lemma every_count_is_attained_witness :
  exists r, JSMath.is_random r = true /\ Dashboard.networkMembers r = Num 999.
Proof. apply every_count_is_attained. lia. Defined.

(** A panel that resolved "tx1" is given a message whose batch answers
    non-2xx. *)
Lemma unresolved_batch_keeps_previous_id_witness :
  let s := {| MessageDetails.loading := false; MessageDetails.txId := Some "tx1" |} in
  let s' := Observe.batchSettles Samples.someMessageProps s (Response false None) in
  MessageDetails.txId s' = Some "tx1" /\
  UI.props_of (MessageDetails.render (fun k => k) (fun d => d)
                 Samples.someMessageProps s') =
    [("DisplaySlide", "onClose", MessageDetails.onClose);
     Observe.viewTx Samples.someMessageProps "tx1"].
Proof.
  intros s s'.
  destruct (unresolved_batch_keeps_previous_id (fun k => k) (fun d => d)
              Samples.someMessageProps s (Response false None) eq_refl)
    as (Hid & _ & Hnav & _).
  split; [exact Hid | ].
  apply Hnav; [reflexivity | discriminate].
Defined.

(** Page 1 asked from page 0 of seven rows: the page changes and the one
    request for it is issued. *)
Lemma page_change_fetches_iff_page_changes_witness :
  let c := {| AccountDetails.props := Samples.someAccountParams;
              AccountDetails.state := AccountDetails.onPage 0 7;
              AccountDetails.inflight := [];
              AccountDetails.console := [] |} in
  let c' := AccountDetails.step c (AccountDetails.PageChange (Num 1)) in
  AccountDetails.currentPage (AccountDetails.state c') = Num 1 /\
  AccountDetails.inflight c' =
    AccountDetails.inflight c ++
    [AccountDetails.TransfersFetch
       (AccountDetails.transfersRequest (AccountDetails.props c)
          (AccountDetails.state c'))].
Proof.
  intros c c'.
  destruct (page_change_fetches_iff_page_changes c (Num 1)) as (_ & _ & Hchanged).
  apply Hchanged. discriminate.
Defined.

(** The account request of the freshly mounted view answers non-2xx. *)
Lemma fetch_without_data_only_clears_loading_witness :
  let c := AccountDetails.mount Samples.someAccountParams in
  let c' := AccountDetails.step c
              (AccountDetails.AccountSettles
                 (AccountDetails.accountRequest Samples.someAccountParams)
                 (Response false None)) in
  AccountDetails.tokenAccount (AccountDetails.state c') = None /\
  AccountDetails.loading (AccountDetails.state c') = false /\
  AccountDetails.console c' = ["error fetching token pool"].
Proof.
  intros c c'.
  assert (Hin : AccountDetails.AccountFetch
                  (AccountDetails.accountRequest Samples.someAccountParams)
                ∈ AccountDetails.inflight c).
  { apply list_elem_of_In. left. reflexivity. }
  destruct (fetch_without_data_only_clears_loading c
              (AccountDetails.accountRequest Samples.someAccountParams)
              (Response false None) Rejected) as [Hacc _].
  destruct (Hacc Hin eq_refl) as (Ha & _ & _ & _ & _ & Hl & _ & Hlog).
  split_and!; [exact Ha | exact Hl | exact Hlog].
Defined.

(** The row of a mint without sender, to the recipient 0x01. *)
Lemma transfer_rows_follow_transfers_witness :
  let s := AccountDetails.run AccountDetails.initial
             [AccountDetails.setTokenTransfers [Samples.someTransfer]] in
  exists cells,
    AccountDetails.tokenTransfersRecords (fun k => k) (fun d => d) s !! 0%nat
      = Some ("tx1", cells) /\
    flat_map UI.leaves cells =
      [LText "mint"; LText "10"; LText "---"; LText "2021-11-02T00:00:00Z"] /\
    cells !! 3%nat = Some (Text "---") /\
    cells !! 4%nat =
      Some (AccountDetails.HashPopover
              [("shortHash", AFlag true); ("textColor", AText "primary")] "0x01").
Proof.
  intro s.
  destruct (transfer_rows_follow_transfers (fun k => k) (fun d => d) s)
    as (_ & _ & _ & Hrow).
  destruct (Hrow 0%nat Samples.someTransfer eq_refl)
    as (cells & Hlook & Hleaves & _ & _ & _ & Hto & Hnofrom & _).
  exists cells. split_and!.
  - exact Hlook.
  - exact Hleaves.
  - apply Hnofrom. left. reflexivity.
  - apply (Hto "0x01"); [reflexivity | discriminate].
Defined.

(** The row of a broadcast message. *)
Lemma message_rows_follow_messages_witness :
  let s := Dashboard.run Dashboard.initial [Dashboard.setMessages [Samples.someMessage]] in
  exists cells,
    Dashboard.messageRecords (fun d => d) s !! 0%nat = Some ("m1", cells) /\
    flat_map UI.leaves cells = [LText "broadcast"; LText "2021-11-02T00:00:00Z"].
Proof.
  intro s.
  destruct (message_rows_follow_messages (fun k => k) (fun d => d) s)
    as (_ & _ & _ & Hrow).
  destruct (Hrow 0%nat Samples.someMessage eq_refl) as (cells & Hlook & Hleaves & _).
  exists cells. split; [exact Hlook | exact Hleaves].
Defined.

(** The batch of the sample message resolves to "tx9". *)
Lemma resolved_batch_offers_navigation_witness :
  let s' := Observe.batchSettles Samples.someMessageProps MessageDetails.initial
              (Response true (Some {| Interfaces.payload_tx_id := "tx9" |})) in
  UI.props_of (MessageDetails.render (fun k => k) (fun d => d)
                 Samples.someMessageProps s') =
    [("DisplaySlide", "onClose", MessageDetails.onClose);
     Observe.viewTx Samples.someMessageProps "tx9"].
Proof.
  intro s'.
  destruct (resolved_batch_offers_navigation (fun k => k) (fun d => d)
              Samples.someMessageProps MessageDetails.initial
              {| Interfaces.payload_tx_id := "tx9" |})
    as (_ & _ & _ & Hnav & _).
  apply Hnav. discriminate.
Defined.
